(** * Outliner: a shallow embedding of [outliner.py]

    The module [outliner.py] defines two classes.  [ChatOllama] keeps a
    conversation history and sends the flattened history to an Ollama
    backend; [Outliner] loads a transcript from the [Transcripts] folder,
    splits it with langchain's [MarkdownTextSplitter], asks the chat object
    for insights per chunk and for a JSON blueprint of the insights.

    Python behaviour is rendered as follows.
    - [str] is [string]; a list is a [list]; [None] is an [option].
    - A call either returns or raises: [outcome].  Effects (printing, the
      file system, the clock, calls to the backend) are recorded in a trace
      of [event]s that is threaded through a state monad [M]; a raised
      exception keeps the effects made before it.
    - Everything that lives outside the module (the file system, the Ollama
      service, langchain's splitter, tiktoken, the clock) is a field of the
      environment record [Env]; nothing is assumed about it except where a
      statement says so. *)

From Stdlib Require Import String Ascii List Bool Arith ZArith QArith Lia.
From Stdlib Require Import DecimalString.
Import ListNotations.
Local Close Scope Q_scope.
Local Open Scope list_scope.
Local Open Scope string_scope.

Set Implicit Arguments.

(** ** Fragments of the Python runtime *)

Module Py.

(** The exception classes that occur.  [KeyboardInterrupt] and
    [SystemExit] derive from [BaseException] only; every other class
    derives from [Exception]. *)
Inductive exc_class : Type :=
| ValueError
| FileNotFoundError
| TypeError
| AttributeError
| IndexError
| KeyError
| OSError
| ConnectionError
| TimeoutError
| KeyboardInterrupt
| SystemExit
| OtherException (name : string).

Definition isinstance_Exception (c : exc_class) : bool :=
  match c with
  | KeyboardInterrupt | SystemExit => false
  | _ => true
  end.

(** An exception instance: its class and what [str(e)] gives. *)
Record exn : Type := mk_exn { exc_type : exc_class; exc_str : string }.

Inductive outcome (A : Type) : Type :=
| Return (a : A)
| Raise (e : exn).
Arguments Return {A} a.
Arguments Raise {A} e.

Definition is_return {A} (r : outcome A) : bool :=
  match r with Return _ => true | Raise _ => false end.

(** The line feed, [chr(10)]. *)
Definition nl : string := String (ascii_of_nat 10) EmptyString.

(** The double quote, [chr(34)]. *)
Definition dq : string := String (ascii_of_nat 34) EmptyString.

(** [sep.join(items)] *)
Fixpoint join (sep : string) (items : list string) : string :=
  match items with
  | [] => ""
  | [x] => x
  | x :: rest => x ++ sep ++ join sep rest
  end.

(** [s.startswith(prefix)] *)
Definition startswith (s prefix : string) : bool := String.prefix prefix s.

(** [s.endswith(suffix)] *)
Definition endswith (s suffix : string) : bool :=
  let n := String.length s in
  let m := String.length suffix in
  if (m <=? n)%nat then String.eqb (substring (n - m) m s) suffix else false.

(** [str(n)] for a natural number. *)
Definition str_of_nat (n : nat) : string :=
  NilZero.string_of_uint (Nat.to_uint n).

(** [x in items] for strings. *)
Definition contains (x : string) (items : list string) : bool :=
  existsb (String.eqb x) items.

(** [os.path.join(a, b)] on a POSIX system. *)
Definition os_path_join (a b : string) : string :=
  if startswith b "/" then b
  else if (String.eqb a "" || endswith a "/")%bool then a ++ b
  else a ++ "/" ++ b.

(** [items[0]] *)
Definition index0 {A} (items : list A) : outcome A :=
  match items with
  | x :: _ => Return x
  | [] => Raise (mk_exn IndexError "list index out of range")
  end.

(** The state and error monad: [S] is the mutable state, which survives
    a raised exception. *)
Definition M (S A : Type) : Type := S -> outcome A * S.

Definition ret {S A} (a : A) : M S A := fun s => (Return a, s).

Definition bind {S A B} (c : M S A) (k : A -> M S B) : M S B :=
  fun s =>
    match c s with
    | (Return a, s') => k a s'
    | (Raise e, s') => (Raise e, s')
    end.

Definition raise {S A} (e : exn) : M S A := fun s => (Raise e, s).

Definition lift_outcome {S A} (r : outcome A) : M S A := fun s => (r, s).

(** [try: body  except Exception as e: handler(e)] *)
Definition try_except_Exception {S A}
    (body : M S A) (handler : exn -> M S A) : M S A :=
  fun s =>
    match body s with
    | (Return a, s') => (Return a, s')
    | (Raise e, s') =>
        if isinstance_Exception (exc_type e) then handler e s'
        else (Raise e, s')
    end.

End Py.
Import Py.

Declare Scope py_scope.
Delimit Scope py_scope with py.
Notation "x <- c ;; k" := (bind c (fun x => k))
  (at level 61, c at next level, right associativity) : py_scope.
Notation "c ;; k" := (bind c (fun _ => k))
  (at level 61, right associativity) : py_scope.
Local Open Scope py_scope.

(** ** The world outside the module *)

(** A chat message as langchain's [to_messages()] yields it. *)
Inductive role : Type := SystemRole | HumanRole.
Record Message : Type := mk_Message { msg_role : role; msg_content : string }.

(** What is observable of a run, in the order it happens. *)
Inductive event : Type :=
| EPrint (line : string)
| EListDir (path : string)
| EOpenRead (path : string)
| EOllamaInit (model : string) (temperature : Q)
| EOllamaGenerate (prompts : list string)
| EChatCall (messages : list Message)
| ETime.

Definition trace : Type := list event.

(** langchain's [Generation], [LLMResult] and [Document]. *)
Record Generation : Type := mk_Generation { text : string }.
Record LLMResult : Type := mk_LLMResult { generations : list (list Generation) }.
Record Document : Type := mk_Document { page_content : string }.

(** The handle [Ollama(model=..., temperature=...)]. *)
Record Ollama : Type := mk_Ollama { model : string; temperature : Q }.

(** A tiktoken encoding: [encode] gives the token ids or raises. *)
Record Encoding : Type := mk_Encoding { encode : string -> outcome (list N) }.

Record Env : Type := mk_Env {
  (** [os.path.dirname(os.path.abspath(__file__))] *)
  script_dir : string;
  (** [os.listdir(path)] *)
  listdir : string -> outcome (list string);
  (** [open(path, "r", encoding="utf-8").read()] *)
  read_text : string -> outcome string;
  (** [ollama._generate(prompts)]: the service may answer differently from
      call to call, so its answer may depend on what happened before. *)
  ollama_generate : Ollama -> trace -> list string -> outcome LLMResult;
  (** [MarkdownTextSplitter(chunk_size, chunk_overlap).create_documents(texts)],
      with the length function the splitter measures chunks with. *)
  create_documents :
    (string -> nat) -> nat -> nat -> list string -> outcome (list Document);
  (** [tiktoken.get_encoding(name)] *)
  get_encoding : string -> outcome Encoding;
  (** [time.time()], in seconds, as a function of what happened before. *)
  time_time : trace -> Q;
  (** the text of [f"{t:.2f}"] *)
  format_2f : Q -> string
}.

(** [print(line)] *)
Definition print (line : string) : M trace unit :=
  fun w => (Return tt, (w ++ [EPrint line])%list).

(** ** class ChatOllama *)

Record ChatOllama : Type := mk_ChatOllama {
  ollama : Ollama;
  conversation_history : list string
}.

(** The state a method of [ChatOllama] runs in: the object and the trace. *)
Record ChatState : Type := mk_ChatState {
  self_chat : ChatOllama;
  chat_trace : trace
}.

Definition lift_trace {A} (c : M trace A) : M ChatState A :=
  fun s =>
    let (r, w) := c (chat_trace s) in
    (r, mk_ChatState (self_chat s) w).

(** [ChatOllama.__init__] *)
Definition ChatOllama_init (model_name : string) (temp : Q) : M trace ChatOllama :=
  fun w =>
    (Return (mk_ChatOllama (mk_Ollama model_name temp) []),
     (w ++ [EOllamaInit model_name temp])%list).

(** [ChatOllama.add_to_history] *)
Definition add_to_history (message : string) : M ChatState unit :=
  fun s =>
    (Return tt,
     mk_ChatState
       (mk_ChatOllama (ollama (self_chat s))
          (conversation_history (self_chat s) ++ [message]))
       (chat_trace s)).

(** [ChatOllama.format_prompt] *)
Definition format_prompt : M ChatState string :=
  fun s => (Return (join " " (conversation_history (self_chat s))), s).

(** [self.ollama._generate(prompts)] *)
Definition ollama__generate (env : Env) (prompts : list string)
  : M ChatState LLMResult :=
  fun s =>
    (ollama_generate env (ollama (self_chat s)) (chat_trace s) prompts,
     mk_ChatState (self_chat s) ((chat_trace s ++ [EOllamaGenerate prompts])%list)).

Definition sentinel : string := "Sorry, I couldn't generate a response.".

(** [ChatOllama.generate_response] *)
Definition generate_response (env : Env) (user_input : string)
  : M ChatState string :=
  add_to_history ("User: " ++ user_input) ;;
  prompt <- format_prompt ;;
  try_except_Exception
    (response <- ollama__generate env [prompt] ;;
     row <- lift_outcome (index0 (generations response)) ;;
     gen <- lift_outcome (index0 row) ;;
     let generated_text := text gen in
     add_to_history ("Bot: " ++ generated_text) ;;
     ret generated_text)
    (fun e =>
       lift_trace (print ("An error occurred: " ++ exc_str e)) ;;
       ret sentinel).

(** ** Prompt templates *)

(** [template.format(name=value)] as langchain's prompt templates apply it:
    a doubled brace stands for a brace, [{name}] is replaced by the value,
    which is not scanned again; a field of another name raises [KeyError],
    an empty field [IndexError], a lone or unclosed brace [ValueError].
    Conversions and format specifications do not occur in the templates of
    this module and are not rendered. *)
Inductive fmt_state : Type :=
| FText
| FOpen
| FClose
| FField (field : string).

Definition fmt_emit (c : ascii) (r : outcome string) : outcome string :=
  match r with
  | Return s => Return (String c s)
  | Raise e => Raise e
  end.

Definition fmt_subst (field name value : string) (r : outcome string)
  : outcome string :=
  if String.eqb field name then
    match r with
    | Return s => Return (value ++ s)
    | Raise e => Raise e
    end
  else Raise (mk_exn KeyError field).

Definition single_close : exn :=
  mk_exn ValueError "Single '}' encountered in format string".

Definition unclosed_field : exn :=
  mk_exn ValueError "expected '}' before end of string".

Definition positional_field : exn :=
  mk_exn IndexError "Replacement index 0 out of range for positional args tuple".

Fixpoint format_scan (name value : string) (st : fmt_state) (tpl : string)
  : outcome string :=
  match tpl with
  | EmptyString =>
      match st with
      | FText => Return ""
      | FClose => Raise single_close
      | FOpen | FField _ => Raise unclosed_field
      end
  | String c rest =>
      match st with
      | FText =>
          if Ascii.eqb c "{" then format_scan name value FOpen rest
          else if Ascii.eqb c "}" then format_scan name value FClose rest
          else fmt_emit c (format_scan name value FText rest)
      | FOpen =>
          if Ascii.eqb c "{" then fmt_emit c (format_scan name value FText rest)
          else if Ascii.eqb c "}" then Raise positional_field
          else format_scan name value (FField (String c "")) rest
      | FClose =>
          if Ascii.eqb c "}" then fmt_emit c (format_scan name value FText rest)
          else Raise single_close
      | FField field =>
          if Ascii.eqb c "}"
          then fmt_subst field name value (format_scan name value FText rest)
          else format_scan name value (FField (field ++ String c "")) rest
      end
  end.

Definition format_template (tpl name value : string) : outcome string :=
  format_scan name value FText tpl.

(** [ChatPromptTemplate.from_messages([system, human])
      .format_prompt(name=value).to_messages()] *)
Definition to_messages (system_template human_template name value : string)
  : outcome (list Message) :=
  match format_template system_template name value with
  | Raise e => Raise e
  | Return sys =>
      match format_template human_template name value with
      | Raise e => Raise e
      | Return human =>
          Return [mk_Message SystemRole sys; mk_Message HumanRole human]
      end
  end.

Definition insights_system_template : string :=
  "You are a helpful assistant that summarizes transcripts of podcasts or lectures.".

Definition insights_human_template : string :=
  "From this chunk of a presentation transcript, extract a short list of key insights. " ++
  "            Skip explaining what you're doing, labeling the insights and writing conclusion paragraphs. " ++
  "            The insights have to be phrased as statements of facts with no references to the presentation or the transcript. " ++
  "            Statements have to be full sentences and in terms of words and phrases as close as possible to those used in the transcript. " ++
  "            Keep as much detail as possible. The transcript of the presentation is delimited in triple backticks." ++ nl ++
  nl ++
  "            Desired output format:" ++ nl ++
  "            - [Key insight #1]" ++ nl ++
  "            - [Key insight #2]" ++ nl ++
  "            - [...]" ++ nl ++
  nl ++
  "            Transcript:" ++ nl ++
  "            ```{transcript}```".

Definition blueprint_system_template : string :=
  "You are a helpful AI blogger who writes essays on technical topics.".

Definition blueprint_human_template : string :=
  "Organize the provided key insights into a structured JSON outline for a blog post. Follow these steps:" ++ nl ++
  nl ++
  "        1. Identify and number each key insight." ++ nl ++
  "        2. Cluster similar insights into groups, with each group containing 3-5 insights related to a specific topic." ++ nl ++
  "        3. Combine these topics into higher-level themes, each consisting of 3-5 related topics." ++ nl ++
  "        4. Structure these themes in a logical order, with the most overarching theme at the top as the thesis statement of the blog post." ++ nl ++
  "        5. Within each theme, list the topics as supporting arguments, and under each topic, list the corresponding insights as pieces of evidence." ++ nl ++
  "        6. Ensure all insights are kept as full sentences with their original wording and retain technical details." ++ nl ++
  "        7. Label each layer appropriately as 'Thesis Statement', 'Supporting Arguments', and 'Evidence'." ++ nl ++
  nl ++
  "        The output should be in JSON format, focusing solely on organizing the information hierarchically without additional explanations:" ++ nl ++
  nl ++
  "            Desired output format:" ++ nl ++
  "            {{" ++ nl ++
  "            " ++ dq ++ "Thesis Statement" ++ dq ++ ": " ++ dq ++ "..." ++ dq ++ "," ++ nl ++
  "            " ++ dq ++ "Supporting Arguments" ++ dq ++ ": [" ++ nl ++
  "                {{" ++ nl ++
  "                " ++ dq ++ "Argument" ++ dq ++ ": " ++ dq ++ "..." ++ dq ++ "," ++ nl ++
  "                " ++ dq ++ "Evidence" ++ dq ++ ": [" ++ nl ++
  "                    " ++ dq ++ "..." ++ dq ++ ", " ++ dq ++ "..." ++ dq ++ ", " ++ dq ++ "..." ++ dq ++ ", ..." ++ nl ++
  "                ]" ++ nl ++
  "                }}," ++ nl ++
  "                {{" ++ nl ++
  "                " ++ dq ++ "Argument" ++ dq ++ ": " ++ dq ++ "..." ++ dq ++ "," ++ nl ++
  "                " ++ dq ++ "Evidence" ++ dq ++ ": [" ++ nl ++
  "                    " ++ dq ++ "..." ++ dq ++ ", " ++ dq ++ "..." ++ dq ++ ", " ++ dq ++ "..." ++ dq ++ ", ..." ++ nl ++
  "                ]" ++ nl ++
  "                }}," ++ nl ++
  "                ..." ++ nl ++
  "            ]" ++ nl ++
  "            }}" ++ nl ++
  nl ++
  "            Statements:" ++ nl ++
  "            ```{statements}```".

(** ** class Outliner *)

(** A value a call of the chat object may give back: a message object
    with a [content] attribute, or something without one. *)
Inductive pyval : Type :=
| PMessage (content : string)
| PStr (s : string)
| PNone.

(** What the attribute [self.chat] holds.  [__init__] stores a [ChatOllama];
    as with every Python attribute, another object (a stub in a test, a
    langchain chat model) may be put in its place.  Such an object is
    rendered by what calling it gives, which may depend on what happened
    before. *)
Inductive chat_value : Type :=
| VChatOllama (c : ChatOllama)
| VCallable (f : trace -> list Message -> outcome pyval).

Record Outliner : Type := mk_Outliner {
  raw_transcript : string;
  chat : chat_value
}.

(** [self.chat(messages)].  The class [ChatOllama] defines [__init__],
    [add_to_history], [format_prompt] and [generate_response] and no
    [__call__]: calling an instance raises [TypeError]. *)
Definition call_chat (c : chat_value) (messages : list Message)
  : M trace pyval :=
  match c with
  | VChatOllama _ =>
      raise (mk_exn TypeError "'ChatOllama' object is not callable")
  | VCallable f => fun w => (f w messages, (w ++ [EChatCall messages])%list)
  end.

(** [result.content] *)
Definition attr_content (v : pyval) : outcome string :=
  match v with
  | PMessage c => Return c
  | PStr _ =>
      Raise (mk_exn AttributeError "'str' object has no attribute 'content'")
  | PNone =>
      Raise (mk_exn AttributeError
               "'NoneType' object has no attribute 'content'")
  end.

(** The truth value of [input_filename]: [None] and the empty string are
    false. *)
Definition truthy (input_filename : option string) : bool :=
  match input_filename with
  | None => false
  | Some s => negb (String.eqb s "")
  end.

Definition transcripts_folder (env : Env) : string :=
  os_path_join (script_dir env) "Transcripts".

Definition os_listdir (env : Env) (path : string) : M trace (list string) :=
  fun w => (listdir env path, (w ++ [EListDir path])%list).

Definition open_read (env : Env) (path : string) : M trace string :=
  fun w => (read_text env path, (w ++ [EOpenRead path])%list).

(** [Outliner.__init__] *)
Definition Outliner_init (env : Env) (input_filename : option string)
  : M trace Outliner :=
  let folder_path := transcripts_folder env in
  names <- os_listdir env folder_path ;;
  let transcript_files := filter (fun f => endswith f ".txt") names in
  match transcript_files with
  | [] => raise (mk_exn ValueError "No transcript files found in the folder.")
  | first :: _ =>
      transcript_file_path <-
        (if truthy input_filename then
           let name := match input_filename with Some s => s | None => "" end in
           if contains name transcript_files
           then ret (os_path_join folder_path name)
           else raise (mk_exn FileNotFoundError
                         ("The specified file " ++ name ++
                          " does not exist in the Transcripts folder."))
         else ret (os_path_join folder_path first)) ;;
      print ("Using transcript file: " ++ transcript_file_path) ;;
      raw <- open_read env transcript_file_path ;;
      c <- ChatOllama_init "llama3-70b" (7 # 10)%Q ;;
      ret (mk_Outliner raw (VChatOllama c))
  end.

(** [Outliner.num_tokens_from_string] *)
Definition num_tokens_from_string (env : Env) (self : Outliner)
    (s : string) (encoding_name : string) : outcome Z :=
  match get_encoding env encoding_name with
  | Raise e => Raise e
  | Return encoding =>
      match encode encoding s with
      | Raise e => Raise e
      | Return tokens => Return (Z.of_nat (List.length tokens))
      end
  end.

Definition default_chunk_size : nat := 3000.
Definition default_chunk_overlap : nat := 200.

(** [Outliner.transcript_splitter]: the splitter is built without a
    [length_function], so it measures with [len]. *)
Definition transcript_splitter (env : Env) (self : Outliner)
    (chunk_size chunk_overlap : nat) : outcome (list Document) :=
  create_documents env String.length chunk_size chunk_overlap
    [raw_transcript self].

(** [Outliner.transcript2insights] *)
Definition transcript2insights (env : Env) (self : Outliner)
    (transcript : string) : M trace string :=
  messages <- lift_outcome
    (to_messages insights_system_template insights_human_template
       "transcript" transcript) ;;
  result <- call_chat (chat self) messages ;;
  lift_outcome (attr_content result).

(** The body of the [for] loop of [create_essay_insights], from chunk
    number [i] on, with the text accumulated so far. *)
Fixpoint insights_loop (env : Env) (self : Outliner) (total : nat)
    (verbose : bool) (i : nat) (chunks : list Document) (response : string)
  : M trace string :=
  match chunks with
  | [] => ret response
  | doc :: rest =>
      insights <- transcript2insights env self (page_content doc) ;;
      let response' := join nl [response; insights] in
      (if verbose
       then print (nl ++ "Insights extracted from chunk " ++
                   str_of_nat (i + 1) ++ "/" ++ str_of_nat total ++ ":" ++
                   nl ++ insights)
       else ret tt) ;;
      insights_loop env self total verbose (S i) rest response'
  end.

(** [Outliner.create_essay_insights] *)
Definition create_essay_insights (env : Env) (self : Outliner)
    (transcript_chunks : list Document) (verbose : bool) : M trace string :=
  insights_loop env self (List.length transcript_chunks) verbose 0
    transcript_chunks "".

(** [Outliner.create_blueprint] *)
Definition create_blueprint (env : Env) (self : Outliner)
    (statements : string) (verbose : bool) : M trace string :=
  messages <- lift_outcome
    (to_messages blueprint_system_template blueprint_human_template
       "statements" statements) ;;
  outline <- call_chat (chat self) messages ;;
  (if verbose
   then content <- lift_outcome (attr_content outline) ;;
        print (nl ++ "Essay outline: " ++ content ++ nl)
   else ret tt) ;;
  lift_outcome (attr_content outline).

(** [time.time()] *)
Definition time_now (env : Env) : M trace Q :=
  fun w => (Return (time_time env w), (w ++ [ETime])%list).

(** [Outliner.full_transcript2outline_json] *)
Definition full_transcript2outline_json (env : Env) (self : Outliner)
    (verbose : bool) : M trace string :=
  print (nl ++ "Chunking transcript...") ;;
  transcript_docs <- lift_outcome
    (transcript_splitter env self default_chunk_size default_chunk_overlap) ;;
  t1 <- time_now env ;;
  print (nl ++ "Extracting key insights...") ;;
  essay_insights <- create_essay_insights env self transcript_docs verbose ;;
  t2' <- time_now env ;;
  let t2 := (t2' - t1)%Q in
  print (nl ++ "Creating essay outline...") ;;
  t1 <- time_now env ;;
  blueprint <- create_blueprint env self essay_insights verbose ;;
  t3' <- time_now env ;;
  let t3 := (t3' - t1)%Q in
  (if verbose
   then print "" ;;
        print ("Extracted essay insights in " ++ format_2f env t2 ++
               " seconds.") ;;
        print ("Created essay blueprint in " ++ format_2f env t3 ++
               " seconds.")
   else ret tt) ;;
  ret blueprint.

(** ** Concrete surroundings used in the examples *)

(** A folder with one note and two transcripts, a backend that is down,
    a splitter that keeps a text in one piece (and gives nothing for the
    empty text) and a tokenizer with one token per character. *)
Definition env_down : Env := {|
  script_dir := "/app";
  listdir := fun p =>
    if String.eqb p "/app/Transcripts"
    then Return ["notes.md"; "talk.txt"; "b.txt"]
    else Raise (mk_exn FileNotFoundError p);
  read_text := fun p =>
    if String.eqb p "/app/Transcripts/talk.txt" then Return "hello world"
    else if String.eqb p "/app/Transcripts/b.txt" then Return ""
    else Raise (mk_exn FileNotFoundError p);
  ollama_generate := fun _ _ _ =>
    Raise (mk_exn ConnectionError "connection refused");
  create_documents := fun _ _ _ texts =>
    Return (map mk_Document (filter (fun t => negb (String.eqb t "")) texts));
  get_encoding := fun _ =>
    Return (mk_Encoding
              (fun s => Return (map N_of_ascii (list_ascii_of_string s))));
  time_time := fun w => inject_Z (Z.of_nat (List.length w));
  format_2f := fun _ => "0.00"
|}.

(** The same surroundings with an empty [Transcripts] folder. *)
Definition env_empty_folder : Env := {|
  script_dir := script_dir env_down;
  listdir := fun _ => Return ["notes.md"];
  read_text := read_text env_down;
  ollama_generate := ollama_generate env_down;
  create_documents := create_documents env_down;
  get_encoding := get_encoding env_down;
  time_time := time_time env_down;
  format_2f := format_2f env_down
|}.

(** The same surroundings with a backend that answers, and whose clock
    and answers differ from those of [env_down]. *)
Definition env_answering : Env := {|
  script_dir := script_dir env_down;
  listdir := listdir env_down;
  read_text := read_text env_down;
  ollama_generate := fun _ w _ =>
    Return (mk_LLMResult
              [[mk_Generation ("answer " ++ str_of_nat (List.length w))]]);
  create_documents := create_documents env_down;
  get_encoding := get_encoding env_down;
  time_time := fun w => inject_Z (2 * Z.of_nat (List.length w));
  format_2f := format_2f env_down
|}.

Definition fresh_chat : ChatOllama :=
  mk_ChatOllama (mk_Ollama "llama3-70b" (7 # 10)%Q) [].

Definition two_facts : string := "- fact A" ++ nl ++ "- fact B".

(** A chat object that answers every call with the same message. *)
Definition constant_chat (answer : string) : chat_value :=
  VCallable (fun _ _ => Return (PMessage answer)).

(** ** Counting calls in a trace *)

Definition is_chat_call (ev : event) : bool :=
  match ev with EChatCall _ => true | _ => false end.

Definition chat_calls (w : trace) : nat := List.length (filter is_chat_call w).

(** ** The formatted prompts *)

(** The text of the extraction prompt before the chunk. *)
Definition insights_preamble : string :=
  Eval vm_compute in
    substring 0
      (String.length insights_human_template -
       String.length "```{transcript}```")
      insights_human_template.

(** The text of the blueprint prompt before the statements. *)
Definition blueprint_preamble : string :=
  Eval vm_compute in
    match format_template blueprint_human_template "statements" "" with
    | Return s => substring 0 (String.length s - 6) s
    | Raise _ => ""
    end.

Definition insights_messages (chunk : string) : list Message :=
  [mk_Message SystemRole insights_system_template;
   mk_Message HumanRole (insights_preamble ++ "```" ++ chunk ++ "```")].

Definition blueprint_messages (statements : string) : list Message :=
  [mk_Message SystemRole blueprint_system_template;
   mk_Message HumanRole (blueprint_preamble ++ "```" ++ statements ++ "```")].

(** The prompt [generate_response] sends for a user input: the history
    with the user turn, joined by blanks. *)
Definition prompt_for (s : ChatState) (user_input : string) : string :=
  join " " (conversation_history (self_chat s) ++ ["User: " ++ user_input]).

(** The object after a user turn has been recorded. *)
Definition with_user_turn (c : ChatOllama) (user_input : string) : ChatOllama :=
  mk_ChatOllama (ollama c)
    (conversation_history c ++ ["User: " ++ user_input]).

(** What [create_essay_insights] builds from the per-chunk results:
    every result preceded by a line feed. *)
Fixpoint blocks (results : list string) : string :=
  match results with
  | [] => ""
  | r :: rest => nl ++ r ++ blocks rest
  end.

(** The events of a run up to the synthesis step when there is no chunk. *)
Definition before_synthesis (w : trace) : trace :=
  (w ++ [EPrint (nl ++ "Chunking transcript..."); ETime;
         EPrint (nl ++ "Extracting key insights..."); ETime;
         EPrint (nl ++ "Creating essay outline..."); ETime])%list.

(** What [__init__] gives when it has read [raw] from [path], started in
    the trace [w]: the object, and the trace with the listing, the printed
    line, the read and, last, the construction of the backend handle. *)
Definition loaded (env : Env) (w : trace) (path raw : string)
  : outcome Outliner * trace :=
  (Return (mk_Outliner raw (VChatOllama fresh_chat)),
   (w ++ [EListDir (transcripts_folder env);
          EPrint ("Using transcript file: " ++ path);
          EOpenRead path;
          EOllamaInit "llama3-70b" (7 # 10)%Q])%list).

(** ** Further surroundings and filters used in the statements *)

(** The surroundings of [env_down] with a backend call that is interrupted
    from the keyboard. *)
Definition env_interrupted : Env := {|
  script_dir := script_dir env_down;
  listdir := listdir env_down;
  read_text := read_text env_down;
  ollama_generate := fun _ _ _ => Raise (mk_exn KeyboardInterrupt "");
  create_documents := create_documents env_down;
  get_encoding := get_encoding env_down;
  time_time := time_time env_down;
  format_2f := format_2f env_down
|}.

(** The surroundings of [env_down] with a backend that answers without
    any generation. *)
Definition env_malformed : Env := {|
  script_dir := script_dir env_down;
  listdir := listdir env_down;
  read_text := read_text env_down;
  ollama_generate := fun _ _ _ => Return (mk_LLMResult []);
  create_documents := create_documents env_down;
  get_encoding := get_encoding env_down;
  time_time := time_time env_down;
  format_2f := format_2f env_down
|}.

(** The surroundings of [env_down] with a splitter that cuts a text at
    every blank. *)
Definition env_words : Env := {|
  script_dir := script_dir env_down;
  listdir := listdir env_down;
  read_text := read_text env_down;
  ollama_generate := ollama_generate env_down;
  create_documents := fun _ _ _ texts =>
    Return (map mk_Document
              (flat_map
                 (fun t =>
                    if String.eqb t "" then []
                    else match index 0 " " t with
                         | Some n =>
                             [substring 0 n t;
                              substring (n + 1) (String.length t - n - 1) t]
                         | None => [t]
                         end)
                 texts));
  get_encoding := get_encoding env_down;
  time_time := time_time env_down;
  format_2f := format_2f env_down
|}.

Definition is_generate_call (ev : event) : bool :=
  match ev with EOllamaGenerate _ => true | _ => false end.

Definition is_print (ev : event) : bool :=
  match ev with EPrint _ => true | _ => false end.

Definition is_ollama_init (ev : event) : bool :=
  match ev with EOllamaInit _ _ => true | _ => false end.

(** A chat object whose answer depends on the messages only. *)
Definition stateless_chat (g : list Message -> outcome pyval) : chat_value :=
  VCallable (fun _ messages => g messages).

(** A chat object that answers with the length of the last message. *)
Definition counting_chat : chat_value :=
  VCallable
    (fun _ messages =>
       Return (PMessage
                 (str_of_nat
                    (String.length
                       (msg_content (last messages (mk_Message HumanRole ""))))))).

(** A chat object that fails on every prompt that ends in [bad```]. *)
Definition picky_chat : chat_value :=
  stateless_chat
    (fun messages =>
       match messages with
       | [_; human] =>
           if endswith (msg_content human) "bad```"
           then Raise (mk_exn TimeoutError "timed out")
           else Return (PMessage "ok")
       | _ => Return PNone
       end).


(** What the backend gives for the prompt of a call: the text of the
    first generation for the first prompt, or the exception raised by the
    request or by the access to that generation. *)
Definition backend_text (env : Env) (s : ChatState) (user_input : string)
  : outcome string :=
  match ollama_generate env (ollama (self_chat s)) (chat_trace s)
          [prompt_for s user_input] with
  | Raise e => Raise e
  | Return response =>
      match index0 (generations response) with
      | Raise e => Raise e
      | Return row =>
          match index0 row with
          | Raise e => Raise e
          | Return gen => Return (text gen)
          end
      end
  end.

(** * Properties *)

(** ** Strings *)

Lemma string_app_nil_r (s : string) : s ++ "" = s.
Proof. induction s as [| c s IH]; simpl; [| rewrite IH]; reflexivity. Qed.

Lemma string_app_assoc (s t u : string) : (s ++ t) ++ u = s ++ t ++ u.
Proof. induction s as [| c s IH]; simpl; [| rewrite IH]; reflexivity. Qed.

Lemma join_pair (sep x y : string) : join sep [x; y] = x ++ sep ++ y.
Proof. reflexivity. Qed.

(** ** The formatted prompts *)

Lemma to_messages_insights (chunk : string) :
  to_messages insights_system_template insights_human_template
    "transcript" chunk = Return (insights_messages chunk).
Proof. vm_compute. reflexivity. Qed.

Lemma to_messages_blueprint (statements : string) :
  to_messages blueprint_system_template blueprint_human_template
    "statements" statements = Return (blueprint_messages statements).
Proof. vm_compute. reflexivity. Qed.

(** ** [ChatOllama.generate_response] *)

(** A backend error of class [Exception] is caught: the call returns the
    sentinel, the history holds the user turn, the trace holds the call
    and the printed error. *)
Lemma generate_response_on_raise (env : Env) (s : ChatState)
    (user_input : string) (e : exn) :
  ollama_generate env (ollama (self_chat s)) (chat_trace s)
    [prompt_for s user_input] = Raise e ->
  isinstance_Exception (exc_type e) = true ->
  generate_response env user_input s =
  (Return sentinel,
   mk_ChatState (with_user_turn (self_chat s) user_input)
     (chat_trace s ++
      [EOllamaGenerate [prompt_for s user_input];
       EPrint ("An error occurred: " ++ exc_str e)])%list).
Proof.
  intros Hraise Hcls.
  unfold generate_response, bind, try_except_Exception, add_to_history,
    format_prompt, ollama__generate, lift_trace, print, ret, with_user_turn,
    prompt_for in *.
  simpl in *. rewrite Hraise. simpl. rewrite Hcls. simpl.
  rewrite <- app_assoc. reflexivity.
Qed.

(** An error that is not of class [Exception] passes through. *)
Lemma generate_response_on_base_exception (env : Env) (s : ChatState)
    (user_input : string) (e : exn) :
  ollama_generate env (ollama (self_chat s)) (chat_trace s)
    [prompt_for s user_input] = Raise e ->
  isinstance_Exception (exc_type e) = false ->
  fst (generate_response env user_input s) = Raise e.
Proof.
  intros Hraise Hcls.
  unfold generate_response, bind, try_except_Exception, add_to_history,
    format_prompt, ollama__generate, ret, prompt_for in *.
  simpl in *. rewrite Hraise. simpl. rewrite Hcls.
  reflexivity.
Qed.

(** A well-formed answer is returned and recorded as the bot turn. *)
Lemma generate_response_on_answer (env : Env) (s : ChatState)
    (user_input : string) (g : Generation) (row : list Generation)
    (rows : list (list Generation)) :
  ollama_generate env (ollama (self_chat s)) (chat_trace s)
    [prompt_for s user_input] = Return (mk_LLMResult ((g :: row) :: rows)) ->
  generate_response env user_input s =
  (Return (text g),
   mk_ChatState
     (mk_ChatOllama (ollama (self_chat s))
        (conversation_history (self_chat s) ++
         ["User: " ++ user_input; "Bot: " ++ text g]))
     (chat_trace s ++ [EOllamaGenerate [prompt_for s user_input]])%list).
Proof.
  intros Hans.
  unfold generate_response, bind, try_except_Exception, add_to_history,
    format_prompt, ollama__generate, lift_outcome, ret, prompt_for in *.
  simpl in *. rewrite Hans. simpl.
  rewrite <- app_assoc. reflexivity.
Qed.

Example generate_response_answering :
  generate_response env_answering "hi" (mk_ChatState fresh_chat []) =
  (Return "answer 0",
   mk_ChatState
     (mk_ChatOllama (ollama fresh_chat) ["User: hi"; "Bot: answer 0"])
     [EOllamaGenerate ["User: hi"]]).
Proof. reflexivity. Qed.

(** An answer without generations is a failure like any other. *)
Lemma generate_response_on_malformed (env : Env) (s : ChatState)
    (user_input : string) (rows : list (list Generation)) :
  ollama_generate env (ollama (self_chat s)) (chat_trace s)
    [prompt_for s user_input] = Return (mk_LLMResult rows) ->
  (rows = [] \/ exists rest, rows = [] :: rest) ->
  fst (generate_response env user_input s) = Return sentinel /\
  conversation_history (self_chat (snd (generate_response env user_input s))) =
  (conversation_history (self_chat s) ++
     [("User: " ++ user_input)%string])%list.
Proof.
  intros Hans Hshape.
  unfold generate_response, bind, try_except_Exception, add_to_history,
    format_prompt, ollama__generate, lift_outcome, lift_trace, print, ret,
    prompt_for in *.
  simpl in *. rewrite Hans.
  destruct Hshape as [-> | [rest ->]]; simpl; split; reflexivity.
Qed.

(** C1: whenever the backend raises an exception (of class [Exception])
    during the completion call, [generate_response] returns the fixed
    sentinel ["Sorry, I couldn't generate a response."]; it returns, so no
    exception reaches the caller. *)
Theorem generate_response_sentinel_on_backend_error
    (env : Env) (s : ChatState) (user_input : string) (e : exn) :
  ollama_generate env (ollama (self_chat s)) (chat_trace s)
    [prompt_for s user_input] = Raise e ->
  isinstance_Exception (exc_type e) = true ->
  fst (generate_response env user_input s) =
  Return "Sorry, I couldn't generate a response.".
Proof.
  intros Hraise Hcls.
  rewrite (generate_response_on_raise env s user_input Hraise Hcls).
  reflexivity.
Qed.

Lemma generate_response_sentinel_on_backend_error_witness :
  ollama_generate env_down (ollama fresh_chat) []
    [prompt_for (mk_ChatState fresh_chat []) "hi"] =
  Raise (mk_exn ConnectionError "connection refused") /\
  fst (generate_response env_down "hi" (mk_ChatState fresh_chat [])) =
  Return "Sorry, I couldn't generate a response.".
Proof.
  split.
  - reflexivity.
  - apply (generate_response_sentinel_on_backend_error env_down
             (mk_ChatState fresh_chat []) "hi"
             (e := mk_exn ConnectionError "connection refused"));
      reflexivity.
Defined.

(** C2, as stated, fails: after a failed call the history holds the user
    turn and nothing else; the sentinel is returned but not recorded, with
    or without the ["Bot: "] prefix. *)
Lemma failed_call_history_lacks_sentinel :
  let r := generate_response env_down "hi" (mk_ChatState fresh_chat []) in
  fst r = Return sentinel /\
  conversation_history (self_chat (snd r)) = ["User: hi"] /\
  ~ In ("Bot: " ++ sentinel) (conversation_history (self_chat (snd r))) /\
  ~ In sentinel (conversation_history (self_chat (snd r))).
Proof.
  cbv zeta. repeat split; try reflexivity.
  - simpl. intros [H | []]. discriminate H.
  - simpl. intros [H | []]. discriminate H.
Qed.

(** C2, amended: whenever the backend raises an exception (of class
    [Exception]) during the completion call, after [generate_response]
    has returned the history is the history before the call followed by
    the user turn ["User: ..."] alone; the prompt of the next call is that
    history joined by blanks. *)
Theorem generate_response_failure_records_user_turn_only
    (env : Env) (s : ChatState) (user_input : string) (e : exn) :
  ollama_generate env (ollama (self_chat s)) (chat_trace s)
    [prompt_for s user_input] = Raise e ->
  isinstance_Exception (exc_type e) = true ->
  let s' := snd (generate_response env user_input s) in
  conversation_history (self_chat s') =
    (conversation_history (self_chat s) ++
     [("User: " ++ user_input)%string])%list /\
  fst (format_prompt s') =
    Return (prompt_for s user_input).
Proof.
  intros Hraise Hcls.
  rewrite (generate_response_on_raise env s user_input Hraise Hcls).
  split; reflexivity.
Qed.

Lemma generate_response_failure_records_user_turn_only_witness :
  let s := mk_ChatState
             (mk_ChatOllama (mk_Ollama "llama3-70b" (7 # 10)%Q)
                ["User: a"; "Bot: b"]) [] in
  let s' := snd (generate_response env_down "hi" s) in
  conversation_history (self_chat s') = ["User: a"; "Bot: b"; "User: hi"] /\
  fst (format_prompt s') = Return "User: a Bot: b User: hi".
Proof.
  cbv zeta.
  apply (generate_response_failure_records_user_turn_only env_down
           (mk_ChatState
              (mk_ChatOllama (mk_Ollama "llama3-70b" (7 # 10)%Q)
                 ["User: a"; "Bot: b"]) [])
           "hi" (e := mk_exn ConnectionError "connection refused"));
    reflexivity.
Defined.

(** ** [Outliner.transcript2insights] *)

(** With a callable chat object the extraction sends the two messages of
    the fixed prompt and gives the [content] of what comes back. *)
Lemma transcript2insights_callable (env : Env) (raw : string)
    (f : trace -> list Message -> outcome pyval) (chunk : string) (w : trace) :
  transcript2insights env (mk_Outliner raw (VCallable f)) chunk w =
  (match f w (insights_messages chunk) with
   | Return v => attr_content v
   | Raise e => Raise e
   end,
   (w ++ [EChatCall (insights_messages chunk)])%list).
Proof.
  unfold transcript2insights, bind, lift_outcome.
  rewrite to_messages_insights. cbn [chat call_chat].
  destruct (f w (insights_messages chunk)); reflexivity.
Qed.

(** Every object that [__init__] returns holds a [ChatOllama] in [chat]. *)
Lemma Outliner_init_chat (env : Env) (input_filename : option string)
    (w w' : trace) (o : Outliner) :
  Outliner_init env input_filename w = (Return o, w') ->
  chat o = VChatOllama fresh_chat.
Proof.
  unfold Outliner_init, bind, os_listdir, open_read, ChatOllama_init, print,
    raise, ret.
  destruct (listdir env (transcripts_folder env)) as [names | e];
    [| discriminate].
  destruct (filter (fun f => endswith f ".txt") names) as [| first rest];
    [discriminate |].
  destruct (truthy input_filename).
  - destruct (contains _ _); [| discriminate].
    destruct (read_text env _); [| discriminate].
    intros H. injection H as <- _. reflexivity.
  - destruct (read_text env _); [| discriminate].
    intros H. injection H as <- _. reflexivity.
Qed.

(** Calling the stored [ChatOllama] raises once the prompt is built. *)
Lemma transcript2insights_ChatOllama_raises
    (env : Env) (raw : string) (c : ChatOllama) (chunk : string) (w : trace) :
  transcript2insights env (mk_Outliner raw (VChatOllama c)) chunk w =
  (Raise (mk_exn TypeError "'ChatOllama' object is not callable"), w).
Proof.
  unfold transcript2insights, bind, lift_outcome.
  rewrite to_messages_insights. reflexivity.
Qed.

(** C7: on every [Outliner] that [__init__] returns, [transcript2insights]
    raises [TypeError] for every chunk text, after the prompt has been
    built and before anything is sent: [chat] holds a [ChatOllama], whose
    class has no [__call__], so the backend's text is never returned. *)
Theorem transcript2insights_ChatOllama_not_callable
    (env : Env) (input_filename : option string) (w : trace)
    (chunk : string) (w' : trace) :
  match Outliner_init env input_filename w with
  | (Return self, _) =>
      transcript2insights env self chunk w' =
      (Raise (mk_exn TypeError "'ChatOllama' object is not callable"), w')
  | (Raise _, _) => True
  end.
Proof.
  destruct (Outliner_init env input_filename w) as [[self | e] w1] eqn:Hinit;
    [| exact I].
  apply Outliner_init_chat in Hinit.
  destruct self as [raw c]. cbn [chat] in Hinit. subst c.
  apply transcript2insights_ChatOllama_raises.
Qed.

(** On the object built from the folder of [env_down], for the chunk
    ["hello"]. *)
Lemma transcript2insights_hello_raises :
  exists self w,
    Outliner_init env_down None [] = (Return self, w) /\
    transcript2insights env_down self "hello" w =
    (Raise (mk_exn TypeError "'ChatOllama' object is not callable"), w).
Proof.
  eexists. eexists. split.
  - vm_compute. reflexivity.
  - vm_compute. reflexivity.
Qed.

(** The same holds for the blueprint. *)
Lemma create_blueprint_ChatOllama_not_callable
    (env : Env) (raw : string) (c : ChatOllama) (statements : string)
    (verbose : bool) (w : trace) :
  create_blueprint env (mk_Outliner raw (VChatOllama c)) statements verbose w =
  (Raise (mk_exn TypeError "'ChatOllama' object is not callable"), w).
Proof.
  unfold create_blueprint, bind, lift_outcome.
  rewrite to_messages_blueprint. reflexivity.
Qed.

(** ** [Outliner.create_essay_insights] *)

(** The loop with a chat object that answers every call with a message:
    every chunk adds a line feed and the answer for its prompt. *)
Lemma insights_loop_callable (env : Env) (raw : string)
    (f : trace -> list Message -> outcome pyval)
    (g : list Message -> string)
    (total : nat) (verbose : bool) (chunks : list Document) :
  (forall tr msgs, f tr msgs = Return (PMessage (g msgs))) ->
  forall (i : nat) (response : string) (w : trace),
    fst (insights_loop env (mk_Outliner raw (VCallable f)) total verbose i
           chunks response w) =
    Return (response ++
            blocks (map (fun d => g (insights_messages (page_content d)))
                      chunks)).
Proof.
  intros Hf. induction chunks as [| doc rest IH]; intros i response w.
  - simpl. rewrite string_app_nil_r. reflexivity.
  - cbn [insights_loop]. unfold bind at 1.
    rewrite transcript2insights_callable, Hf. cbn [attr_content].
    unfold bind at 1.
    destruct verbose; cbn [print ret];
      rewrite IH, join_pair; cbn [map blocks];
      rewrite !string_app_assoc; reflexivity.
Qed.

(** The loop makes one chat call per chunk, as long as the calls answer
    with a message. *)
Lemma insights_loop_calls (env : Env) (raw : string)
    (f : trace -> list Message -> outcome pyval)
    (g : list Message -> string)
    (total : nat) (verbose : bool) (chunks : list Document) :
  (forall tr msgs, f tr msgs = Return (PMessage (g msgs))) ->
  forall (i : nat) (response : string) (w : trace),
    filter is_chat_call
      (snd (insights_loop env (mk_Outliner raw (VCallable f)) total verbose i
              chunks response w)) =
    (filter is_chat_call w ++
     map (fun d => EChatCall (insights_messages (page_content d))) chunks)%list.
Proof.
  intros Hf. induction chunks as [| doc rest IH]; intros i response w.
  - simpl. rewrite app_nil_r. reflexivity.
  - cbn [insights_loop]. unfold bind at 1.
    rewrite transcript2insights_callable, Hf. cbn [attr_content].
    unfold bind at 1.
    destruct verbose; cbn [print ret];
      rewrite IH; rewrite !filter_app; cbn [filter is_chat_call map];
      rewrite ?app_nil_r, <- app_assoc; reflexivity.
Qed.

(** C4, as stated, fails: with two chunks and a chat object that answers
    ["- fact A\n- fact B"] every time, the result starts with a line feed
    and has one line feed, not a blank line, between the two answers. *)
Lemma two_chunks_result_starts_with_line_feed :
  let o := mk_Outliner "" (constant_chat two_facts) in
  let r := create_essay_insights env_down o
             [mk_Document "first"; mk_Document "second"] true [] in
  fst r = Return (nl ++ two_facts ++ nl ++ two_facts) /\
  fst r <> Return (two_facts ++ nl ++ nl ++ two_facts).
Proof.
  cbv zeta. split.
  - vm_compute. reflexivity.
  - vm_compute. intros H. discriminate H.
Qed.

(** C4, amended: for two chunks and a chat object that answers every call
    with the same text [answer], [create_essay_insights] returns a line
    feed, [answer], a line feed, [answer]: the per-chunk results in chunk
    order, each preceded by one line feed. *)
Theorem create_essay_insights_two_chunks
    (env : Env) (raw : string) (f : trace -> list Message -> outcome pyval)
    (answer : string) (c1 c2 : Document) (verbose : bool) (w : trace) :
  (forall tr msgs, f tr msgs = Return (PMessage answer)) ->
  fst (create_essay_insights env (mk_Outliner raw (VCallable f)) [c1; c2]
         verbose w) =
  Return (nl ++ answer ++ nl ++ answer).
Proof.
  intros Hf. unfold create_essay_insights.
  rewrite (@insights_loop_callable env raw f (fun _ => answer)
             (List.length [c1; c2]) verbose [c1; c2] Hf 0 "" w).
  cbn [map blocks]. rewrite string_app_nil_r. reflexivity.
Qed.

Lemma create_essay_insights_two_chunks_witness :
  (forall (tr : trace) (msgs : list Message),
     (fun _ _ => Return (PMessage two_facts)) tr msgs =
     Return (PMessage two_facts)) /\
  fst (create_essay_insights env_down
         (mk_Outliner "" (constant_chat two_facts))
         [mk_Document "first"; mk_Document "second"] true []) =
  Return (nl ++ two_facts ++ nl ++ two_facts).
Proof.
  split.
  - intros tr msgs. reflexivity.
  - apply (@create_essay_insights_two_chunks env_down ""
             (fun _ _ => Return (PMessage two_facts)) two_facts
             (mk_Document "first") (mk_Document "second") true []).
    intros tr msgs. reflexivity.
Defined.

(** ** [Outliner.create_blueprint] and the whole run *)

(** With a callable chat object the blueprint sends the two messages of
    its fixed prompt, once. *)
Lemma create_blueprint_callable (env : Env) (raw : string)
    (f : trace -> list Message -> outcome pyval) (statements : string)
    (verbose : bool) (w : trace) :
  let sent := (w ++ [EChatCall (blueprint_messages statements)])%list in
  create_blueprint env (mk_Outliner raw (VCallable f)) statements verbose w =
  match f w (blueprint_messages statements) with
  | Raise e => (Raise e, sent)
  | Return v =>
      match attr_content v with
      | Raise e => (Raise e, sent)
      | Return content =>
          (Return content,
           if verbose
           then (sent ++ [EPrint (nl ++ "Essay outline: " ++ content ++ nl)])%list
           else sent)
      end
  end.
Proof.
  cbv zeta. unfold create_blueprint, bind, lift_outcome.
  rewrite to_messages_blueprint. cbn [chat call_chat].
  destruct (f w (blueprint_messages statements)) as [v | e];
    [| reflexivity].
  destruct verbose; destruct (attr_content v); reflexivity.
Qed.

(** The chat calls that a call of [create_blueprint] adds to the trace. *)
Lemma create_blueprint_calls (env : Env) (raw : string)
    (f : trace -> list Message -> outcome pyval) (statements : string)
    (verbose : bool) (w : trace) :
  filter is_chat_call
    (snd (create_blueprint env (mk_Outliner raw (VCallable f)) statements
            verbose w)) =
  (filter is_chat_call w ++ [EChatCall (blueprint_messages statements)])%list.
Proof.
  rewrite create_blueprint_callable.
  destruct (f w (blueprint_messages statements)) as [v | e];
    [destruct (attr_content v); [destruct verbose |] |];
    cbn [snd]; rewrite ?filter_app; cbn [filter is_chat_call];
    rewrite ?app_nil_r; reflexivity.
Qed.

(** A run over an empty chunk sequence is the synthesis step on the empty
    text, after six events none of which is a call, and followed by events
    none of which is a call. *)
Lemma full_run_empty_chunks (env : Env) (self : Outliner) (verbose : bool)
    (w : trace) :
  transcript_splitter env self default_chunk_size default_chunk_overlap =
    Return [] ->
  exists tail : trace,
    filter is_chat_call tail = [] /\
    full_transcript2outline_json env self verbose w =
    (fst (create_blueprint env self "" verbose (before_synthesis w)),
     (snd (create_blueprint env self "" verbose (before_synthesis w)) ++
      tail)%list).
Proof.
  intros Hsplit.
  unfold full_transcript2outline_json, bind, print, lift_outcome, time_now,
    create_essay_insights.
  rewrite Hsplit. cbn [insights_loop ret List.length].
  replace (((((((w ++ [EPrint (nl ++ "Chunking transcript...")]) ++ [ETime]) ++
              [EPrint (nl ++ "Extracting key insights...")]) ++ [ETime]) ++
            [EPrint (nl ++ "Creating essay outline...")]) ++ [ETime])%list)
    with (before_synthesis w)
    by (unfold before_synthesis; rewrite <- !app_assoc; reflexivity).
  destruct (create_blueprint env self "" verbose (before_synthesis w))
    as [[blueprint | e] w2].
  - destruct verbose; cbn [fst snd ret].
    + eexists. split; [| rewrite <- !app_assoc; reflexivity]. reflexivity.
    + eexists. split; [| reflexivity]. reflexivity.
  - exists []. split; [reflexivity |]. cbn [fst snd].
    rewrite app_nil_r. reflexivity.
Qed.

(** With the [ChatOllama] that [__init__] stores, no run returns an
    outline: the first call of the chat object raises, in the extraction
    of the first chunk or, without chunks, in the synthesis step. *)
Lemma full_run_with_ChatOllama_never_returns (env : Env) (raw : string)
    (c : ChatOllama) (verbose : bool) (w : trace) :
  is_return
    (fst (full_transcript2outline_json env (mk_Outliner raw (VChatOllama c))
            verbose w)) = false.
Proof.
  unfold full_transcript2outline_json, bind, print, lift_outcome, time_now,
    create_essay_insights.
  destruct (transcript_splitter env (mk_Outliner raw (VChatOllama c))
              default_chunk_size default_chunk_overlap) as [docs | e];
    [| reflexivity].
  destruct docs as [| doc rest].
  - cbn [insights_loop ret List.length].
    rewrite create_blueprint_ChatOllama_not_callable. reflexivity.
  - cbn [insights_loop]. unfold bind at 1.
    rewrite transcript2insights_ChatOllama_raises. reflexivity.
Qed.

(** C3, as stated, fails.  The empty transcript gives no chunk; with a chat
    object that answers, the run is not rejected: it returns the answer of
    the synthesis step, for which one call is recorded.  With the
    [ChatOllama] that [__init__] stores the run does raise, but at the
    synthesis step and with the [TypeError] of every run. *)
Lemma empty_transcript_is_not_rejected :
  let answering := mk_Outliner "" (constant_chat "{}") in
  let stored := mk_Outliner "" (VChatOllama fresh_chat) in
  transcript_splitter env_down answering default_chunk_size
    default_chunk_overlap = Return [] /\
  fst (full_transcript2outline_json env_down answering false []) =
    Return "{}" /\
  chat_calls (snd (full_transcript2outline_json env_down answering false []))
    = 1 /\
  full_transcript2outline_json env_down stored false [] =
    (Raise (mk_exn TypeError "'ChatOllama' object is not callable"),
     before_synthesis []).
Proof.
  cbv zeta. repeat split; vm_compute; reflexivity.
Qed.

(** C3, amended: for an empty chunk sequence the run does no validation.
    [create_essay_insights] makes no call and returns the empty string,
    no call is made before the synthesis step, and the run returns or
    raises what [create_blueprint] on the empty text returns or raises;
    with a callable chat object that step makes the one call of the run,
    with the blueprint prompt for the empty text. *)
Theorem empty_chunks_run_is_the_synthesis_step
    (env : Env) (self : Outliner) (verbose : bool) (w : trace) :
  transcript_splitter env self default_chunk_size default_chunk_overlap =
    Return [] ->
  (forall w', create_essay_insights env self [] verbose w' = (Return "", w')) /\
  filter is_chat_call (before_synthesis w) = filter is_chat_call w /\
  fst (full_transcript2outline_json env self verbose w) =
    fst (create_blueprint env self "" verbose (before_synthesis w)) /\
  (forall f, chat self = VCallable f ->
     filter is_chat_call
       (snd (full_transcript2outline_json env self verbose w)) =
     (filter is_chat_call w ++ [EChatCall (blueprint_messages "")])%list).
Proof.
  intros Hsplit.
  assert (Hbefore :
            filter is_chat_call (before_synthesis w) = filter is_chat_call w).
  { unfold before_synthesis. rewrite filter_app. cbn [filter is_chat_call].
    apply app_nil_r. }
  destruct (full_run_empty_chunks env self verbose w Hsplit)
    as [tail [Htail Hrun]].
  repeat split.
  - exact Hbefore.
  - rewrite Hrun. reflexivity.
  - intros f Hchat. rewrite Hrun. cbn [snd].
    rewrite filter_app, Htail, app_nil_r.
    destruct self as [raw c]. cbn [chat] in Hchat. subst c.
    rewrite create_blueprint_calls, Hbefore. reflexivity.
Qed.

Lemma empty_chunks_run_is_the_synthesis_step_witness :
  let answering := mk_Outliner "" (constant_chat "{}") in
  fst (full_transcript2outline_json env_down answering true []) =
    fst (create_blueprint env_down answering "" true (before_synthesis [])) /\
  filter is_chat_call
    (snd (full_transcript2outline_json env_down answering true [])) =
  [EChatCall (blueprint_messages "")].
Proof.
  cbv zeta.
  destruct (empty_chunks_run_is_the_synthesis_step env_down
              (mk_Outliner "" (constant_chat "{}")) true []
              ltac:(reflexivity))
    as [_ [_ [Hfst Hcalls]]].
  split; [exact Hfst | exact (Hcalls _ eq_refl)].
Defined.

(** ** [Outliner.transcript_splitter] *)

(** The chunker hands the transcript, the two sizes and the length of a
    string in characters to the splitter; the tokenizer is not asked. *)
Lemma transcript_splitter_ignores_tokenizer (env : Env) (self : Outliner)
    (chunk_size chunk_overlap : nat)
    (other_encoding : string -> outcome Encoding) :
  transcript_splitter
    (mk_Env (script_dir env) (listdir env) (read_text env)
       (ollama_generate env) (create_documents env) other_encoding
       (time_time env) (format_2f env))
    self chunk_size chunk_overlap =
  transcript_splitter env self chunk_size chunk_overlap.
Proof. reflexivity. Qed.

(** ** [Outliner.num_tokens_from_string] *)

(** What the tokenizer raises, the counter raises. *)
Lemma num_tokens_from_string_raises (env : Env) (self : Outliner)
    (s name : string) (encoding : Encoding) (e : exn) :
  get_encoding env name = Return encoding ->
  encode encoding s = Raise e ->
  num_tokens_from_string env self s name = Raise e.
Proof.
  intros Henc Hraise. unfold num_tokens_from_string.
  rewrite Henc, Hraise. reflexivity.
Qed.




(** ** [Outliner.__init__] *)

Lemma contains_In (x : string) (items : list string) :
  contains x items = true <-> In x items.
Proof.
  unfold contains. rewrite existsb_exists. split.
  - intros [y [Hin Heq]]. apply String.eqb_eq in Heq. subst y. exact Hin.
  - intros Hin. exists x. split; [exact Hin | apply String.eqb_refl].
Qed.

Lemma truthy_Some (name : string) : name <> "" -> truthy (Some name) = true.
Proof.
  intros Hne. unfold truthy. apply String.eqb_neq in Hne. rewrite Hne.
  reflexivity.
Qed.

(** C10: given the listing of the [Transcripts] folder, [__init__]
    - raises [ValueError] when no listed name ends in [.txt];
    - raises [FileNotFoundError] when there are such names and a given,
      non-empty [input_filename] is not one of them;
    - otherwise opens for reading the given file, or with no file name
      given the first listed [.txt] file, and keeps what it reads as the
      transcript; the backend handle is made after the read.
    In the two error cases the trace holds the listing only: nothing is
    read and the backend is not touched. *)
Theorem Outliner_init_cases
    (env : Env) (input_filename : option string) (w : trace)
    (names : list string) :
  listdir env (transcripts_folder env) = Return names ->
  let folder := transcripts_folder env in
  let txt := filter (fun f => endswith f ".txt") names in
  (txt = [] ->
   Outliner_init env input_filename w =
   (Raise (mk_exn ValueError "No transcript files found in the folder."),
    (w ++ [EListDir folder])%list)) /\
  (forall name,
     txt <> [] -> input_filename = Some name -> name <> "" -> ~ In name txt ->
     Outliner_init env input_filename w =
     (Raise (mk_exn FileNotFoundError
               ("The specified file " ++ name ++
                " does not exist in the Transcripts folder.")),
      (w ++ [EListDir folder])%list)) /\
  (forall name raw,
     input_filename = Some name -> name <> "" -> In name txt ->
     read_text env (os_path_join folder name) = Return raw ->
     Outliner_init env input_filename w =
     loaded env w (os_path_join folder name) raw) /\
  (forall first rest raw,
     txt = first :: rest -> truthy input_filename = false ->
     read_text env (os_path_join folder first) = Return raw ->
     Outliner_init env input_filename w =
     loaded env w (os_path_join folder first) raw).
Proof.
  intros Hlist. cbv zeta.
  unfold Outliner_init, bind, os_listdir. rewrite Hlist.
  destruct (filter (fun f => endswith f ".txt") names) as [| first rest].
  - repeat split.
    + intros name Hsome. contradiction.
    + intros name raw _ _ [].
    + intros first rest raw Hnil. discriminate Hnil.
  - repeat split.
    + intros Hnil. discriminate Hnil.
    + intros name _ Hin Hne Hnotin. subst input_filename.
      rewrite (truthy_Some Hne).
      destruct (contains name (first :: rest)) eqn:Hc.
      * apply contains_In in Hc. contradiction.
      * reflexivity.
    + intros name raw Hin Hne Hmember Hread. subst input_filename.
      rewrite (truthy_Some Hne).
      apply contains_In in Hmember. rewrite Hmember.
      unfold ret, print, open_read, ChatOllama_init, loaded. rewrite Hread.
      rewrite <- !app_assoc. reflexivity.
    + intros first' rest' raw Htxt Hfalse Hread.
      injection Htxt as <- <-. rewrite Hfalse.
      unfold ret, print, open_read, ChatOllama_init, loaded. rewrite Hread.
      rewrite <- !app_assoc. reflexivity.
Qed.

Lemma Outliner_init_cases_witness :
  Outliner_init env_empty_folder None [] =
    (Raise (mk_exn ValueError "No transcript files found in the folder."),
     [EListDir "/app/Transcripts"]) /\
  Outliner_init env_down (Some "c.txt") [] =
    (Raise (mk_exn FileNotFoundError
              "The specified file c.txt does not exist in the Transcripts folder."),
     [EListDir "/app/Transcripts"]) /\
  Outliner_init env_down (Some "b.txt") [] =
    loaded env_down [] "/app/Transcripts/b.txt" "" /\
  Outliner_init env_down None [] =
    loaded env_down [] "/app/Transcripts/talk.txt" "hello world".
Proof.
  pose proof (Outliner_init_cases env_empty_folder None []
                (names := ["notes.md"]) eq_refl) as Hempty.
  pose proof (Outliner_init_cases env_down (Some "c.txt") []
                (names := ["notes.md"; "talk.txt"; "b.txt"]) eq_refl)
    as Hmissing.
  pose proof (Outliner_init_cases env_down (Some "b.txt") []
                (names := ["notes.md"; "talk.txt"; "b.txt"]) eq_refl)
    as Hgiven.
  pose proof (Outliner_init_cases env_down None []
                (names := ["notes.md"; "talk.txt"; "b.txt"]) eq_refl)
    as Hfirst.
  cbv zeta in Hempty, Hmissing, Hgiven, Hfirst.
  destruct Hempty as [Hempty _].
  destruct Hmissing as [_ [Hmissing _]].
  destruct Hgiven as [_ [_ [Hgiven _]]].
  destruct Hfirst as [_ [_ [_ Hfirst]]].
  split; [| split; [| split]].
  - apply Hempty. reflexivity.
  - apply (Hmissing "c.txt").
    + discriminate.
    + reflexivity.
    + discriminate.
    + simpl. intros [H | [H | []]]; discriminate H.
  - apply (Hgiven "b.txt" "").
    + reflexivity.
    + discriminate.
    + simpl. right. left. reflexivity.
    + reflexivity.
  - apply (Hfirst "talk.txt" ["b.txt"] "hello world"); reflexivity.
Defined.

(** * Further properties *)

(** ** [ChatOllama]: history and prompt *)

Lemma join_snoc (sep : string) (items : list string) (last : string) :
  join sep (items ++ [last]) =
  match items with
  | [] => last
  | _ :: _ => join sep items ++ sep ++ last
  end.
Proof.
  induction items as [| x rest IH]; [reflexivity |].
  destruct rest as [| y rest'].
  - reflexivity.
  - change (join sep ((x :: y :: rest') ++ [last]))
      with (x ++ sep ++ join sep ((y :: rest') ++ [last])).
    rewrite IH.
    change (join sep (x :: y :: rest')) with (x ++ sep ++ join sep (y :: rest')).
    rewrite !string_app_assoc. reflexivity.
Qed.

(** X1: after [add_to_history(message)] the formatted prompt is the message
    itself when the history was empty, and otherwise the prompt before,
    a blank and the message: the prompt is extended at its end and what
    was in it stays. *)
Theorem add_to_history_extends_prompt (message : string) (s : ChatState) :
  fst (format_prompt (snd (add_to_history message s))) =
  Return (match conversation_history (self_chat s) with
          | [] => message
          | _ :: _ =>
              join " " (conversation_history (self_chat s)) ++ " " ++ message
          end).
Proof.
  unfold format_prompt, add_to_history. cbn [fst snd self_chat
    conversation_history]. rewrite join_snoc. reflexivity.
Qed.

(** X2: whatever the backend does, [generate_response] only adds to the
    end of the history, and what it adds is fixed by what the backend
    gives for the prompt: the user turn and the bot turn ["Bot: t"] when
    the backend gives the text [t], which is then the value returned;
    the user turn alone when the request or the access to the first
    generation raises.  The backend handle of the object is not
    changed. *)
Theorem generate_response_history_grows
    (env : Env) (s : ChatState) (user_input : string) :
  ollama (self_chat (snd (generate_response env user_input s))) =
    ollama (self_chat s) /\
  conversation_history (self_chat (snd (generate_response env user_input s)))
  = (conversation_history (self_chat s) ++
     ("User: " ++ user_input)%string ::
     match backend_text env s user_input with
     | Return t => [("Bot: " ++ t)%string]
     | Raise _ => []
     end)%list /\
  (forall t, backend_text env s user_input = Return t ->
     fst (generate_response env user_input s) = Return t).
Proof.
  unfold generate_response, bind, try_except_Exception, add_to_history,
    format_prompt, ollama__generate, lift_outcome, lift_trace, print, ret,
    backend_text, prompt_for.
  cbn [fst snd self_chat chat_trace conversation_history ollama].
  destruct (ollama_generate env (ollama (self_chat s)) (chat_trace s) _)
    as [[rows] | e].
  - destruct rows as [| [| g row] rows]; cbn.
    + split; [reflexivity |]. split; [reflexivity |]. intros t H. discriminate H.
    + split; [reflexivity |]. split; [reflexivity |]. intros t H. discriminate H.
    + split; [reflexivity |]. split.
      * rewrite <- app_assoc. reflexivity.
      * intros t H. injection H as <-. reflexivity.
  - cbn. destruct (isinstance_Exception (exc_type e)); cbn;
      (split; [reflexivity |]; split; [reflexivity |];
       intros t H; discriminate H).
Qed.

(** X3: whatever the backend does, one call of [generate_response] sends
    exactly one request to the backend; the request holds one prompt, the
    whole history with the new user turn joined by blanks. *)
Theorem generate_response_one_backend_call
    (env : Env) (s : ChatState) (user_input : string) :
  filter is_generate_call
    (chat_trace (snd (generate_response env user_input s))) =
  (filter is_generate_call (chat_trace s) ++
   [EOllamaGenerate [prompt_for s user_input]])%list.
Proof.
  unfold generate_response, bind, try_except_Exception, add_to_history,
    format_prompt, ollama__generate, lift_outcome, lift_trace, print, ret,
    prompt_for.
  cbn [fst snd self_chat chat_trace conversation_history ollama].
  destruct (ollama_generate env (ollama (self_chat s)) (chat_trace s) _)
    as [[rows] | e].
  - destruct rows as [| [| g row] rows]; cbn [generations index0 fst snd
      isinstance_Exception exc_type self_chat chat_trace];
      rewrite ?filter_app; cbn [filter is_generate_call];
      rewrite ?app_nil_r; reflexivity.
  - cbn [fst snd]. destruct (isinstance_Exception (exc_type e));
      cbn [fst snd self_chat chat_trace];
      rewrite ?filter_app; cbn [filter is_generate_call];
      rewrite ?app_nil_r; reflexivity.
Qed.

(** X4: when the backend answers, [generate_response] returns the text of
    the first generation for the prompt and records it, and the prompt of
    the following call holds the history before, the first user turn, the
    answer as bot turn and the new user turn, in this order: an earlier
    exchange is sent again with every later call. *)
Theorem generate_response_answer_enters_next_prompt
    (env : Env) (s : ChatState) (user_input next_input : string)
    (g : Generation) (row : list Generation) (rows : list (list Generation)) :
  ollama_generate env (ollama (self_chat s)) (chat_trace s)
    [prompt_for s user_input] = Return (mk_LLMResult ((g :: row) :: rows)) ->
  fst (generate_response env user_input s) = Return (text g) /\
  prompt_for (snd (generate_response env user_input s)) next_input =
  join " "
    (conversation_history (self_chat s) ++
     [("User: " ++ user_input)%string; ("Bot: " ++ text g)%string;
      ("User: " ++ next_input)%string]).
Proof.
  intros Hans. rewrite (generate_response_on_answer env s user_input Hans).
  split; [reflexivity |].
  unfold prompt_for. cbn [snd self_chat conversation_history].
  rewrite <- app_assoc. reflexivity.
Qed.

Lemma generate_response_answer_enters_next_prompt_witness :
  fst (generate_response env_answering "hi" (mk_ChatState fresh_chat [])) =
    Return "answer 0" /\
  prompt_for (snd (generate_response env_answering "hi"
                     (mk_ChatState fresh_chat []))) "and then?" =
  "User: hi Bot: answer 0 User: and then?".
Proof.
  apply (generate_response_answer_enters_next_prompt env_answering
           (mk_ChatState fresh_chat []) "hi" "and then?"
           (g := mk_Generation "answer 0") (row := []) (rows := [])).
  reflexivity.
Defined.

(** X5: an exception of the backend that is not of class [Exception]
    ([KeyboardInterrupt], [SystemExit]) is not caught: it reaches the
    caller, nothing is printed, and the user turn added before the call
    stays in the history without a bot turn. *)
Theorem generate_response_base_exception_propagates
    (env : Env) (s : ChatState) (user_input : string) (e : exn) :
  ollama_generate env (ollama (self_chat s)) (chat_trace s)
    [prompt_for s user_input] = Raise e ->
  isinstance_Exception (exc_type e) = false ->
  generate_response env user_input s =
  (Raise e,
   mk_ChatState (with_user_turn (self_chat s) user_input)
     (chat_trace s ++ [EOllamaGenerate [prompt_for s user_input]])%list).
Proof.
  intros Hraise Hcls.
  unfold generate_response, bind, try_except_Exception, add_to_history,
    format_prompt, ollama__generate, ret, with_user_turn, prompt_for in *.
  simpl in *. rewrite Hraise. simpl. rewrite Hcls. reflexivity.
Qed.

Lemma generate_response_base_exception_propagates_witness :
  generate_response env_interrupted "hi" (mk_ChatState fresh_chat []) =
  (Raise (mk_exn KeyboardInterrupt ""),
   mk_ChatState (mk_ChatOllama (ollama fresh_chat) ["User: hi"])
     [EOllamaGenerate ["User: hi"]]).
Proof.
  apply (generate_response_base_exception_propagates env_interrupted
           (mk_ChatState fresh_chat []) "hi"
           (e := mk_exn KeyboardInterrupt "")); reflexivity.
Defined.

(** X6: an answer of the backend without any generation (no row, or an
    empty first row) is treated as a failure: the [IndexError] of the
    access is caught, its text is printed, the sentinel is returned and
    the history holds the user turn only. *)
Theorem generate_response_sentinel_on_empty_answer
    (env : Env) (s : ChatState) (user_input : string)
    (rows : list (list Generation)) :
  ollama_generate env (ollama (self_chat s)) (chat_trace s)
    [prompt_for s user_input] = Return (mk_LLMResult rows) ->
  (rows = [] \/ exists rest, rows = [] :: rest) ->
  generate_response env user_input s =
  (Return sentinel,
   mk_ChatState (with_user_turn (self_chat s) user_input)
     (chat_trace s ++
      [EOllamaGenerate [prompt_for s user_input];
       EPrint "An error occurred: list index out of range"])%list).
Proof.
  intros Hans Hshape.
  unfold generate_response, bind, try_except_Exception, add_to_history,
    format_prompt, ollama__generate, lift_outcome, lift_trace, print, ret,
    with_user_turn, prompt_for in *.
  simpl in *. rewrite Hans.
  destruct Hshape as [-> | [rest ->]]; simpl;
    rewrite <- app_assoc; reflexivity.
Qed.

Lemma generate_response_sentinel_on_empty_answer_witness :
  generate_response env_malformed "hi" (mk_ChatState fresh_chat []) =
  (Return "Sorry, I couldn't generate a response.",
   mk_ChatState (mk_ChatOllama (ollama fresh_chat) ["User: hi"])
     [EOllamaGenerate ["User: hi"];
      EPrint "An error occurred: list index out of range"]).
Proof.
  apply (generate_response_sentinel_on_empty_answer env_malformed
           (mk_ChatState fresh_chat []) "hi" (rows := [])).
  - reflexivity.
  - left. reflexivity.
Defined.

(** ** [Outliner]: one call of the chat object *)

(** X7: with a callable chat object, [transcript2insights] calls it exactly
    once, with two messages: the fixed system text and the fixed human
    text that ends with the chunk, unchanged whatever it contains, between
    two triple backticks.  It returns the [content] of what comes back,
    raises what the call raises, and raises [AttributeError] when a plain
    string comes back. *)
Theorem transcript2insights_one_call
    (env : Env) (raw : string) (f : trace -> list Message -> outcome pyval)
    (chunk : string) (w : trace) :
  let self := mk_Outliner raw (VCallable f) in
  let messages :=
    [mk_Message SystemRole
       "You are a helpful assistant that summarizes transcripts of podcasts or lectures.";
     mk_Message HumanRole (insights_preamble ++ "```" ++ chunk ++ "```")] in
  snd (transcript2insights env self chunk w) =
    (w ++ [EChatCall messages])%list /\
  (forall content, f w messages = Return (PMessage content) ->
     fst (transcript2insights env self chunk w) = Return content) /\
  (forall e, f w messages = Raise e ->
     fst (transcript2insights env self chunk w) = Raise e) /\
  (forall t, f w messages = Return (PStr t) ->
     fst (transcript2insights env self chunk w) =
     Raise (mk_exn AttributeError "'str' object has no attribute 'content'")).
Proof.
  cbv zeta. rewrite transcript2insights_callable.
  change (insights_messages chunk) with
    [mk_Message SystemRole
       "You are a helpful assistant that summarizes transcripts of podcasts or lectures.";
     mk_Message HumanRole (insights_preamble ++ "```" ++ chunk ++ "```")].
  split; [reflexivity |].
  split; [| split]; intros x Hx; rewrite Hx; reflexivity.
Qed.

(** X8: with a callable chat object, [create_blueprint] calls it exactly
    once, with the fixed system text and the fixed human text that ends
    with the statements, unchanged, between two triple backticks.  It
    returns the [content] of what comes back; [verbose] adds one printed
    line after the call and changes nothing else; what the call raises is
    raised, and a plain string coming back raises [AttributeError]. *)
Theorem create_blueprint_one_call
    (env : Env) (raw : string) (f : trace -> list Message -> outcome pyval)
    (statements : string) (verbose : bool) (w : trace) :
  let self := mk_Outliner raw (VCallable f) in
  let messages :=
    [mk_Message SystemRole
       "You are a helpful AI blogger who writes essays on technical topics.";
     mk_Message HumanRole (blueprint_preamble ++ "```" ++ statements ++ "```")]
  in
  (forall content, f w messages = Return (PMessage content) ->
     create_blueprint env self statements verbose w =
     (Return content,
      (w ++ EChatCall messages ::
         (if verbose
          then [EPrint (nl ++ "Essay outline: " ++ content ++ nl)]
          else []))%list)) /\
  (forall e, f w messages = Raise e ->
     create_blueprint env self statements verbose w =
     (Raise e, (w ++ [EChatCall messages])%list)) /\
  (forall t, f w messages = Return (PStr t) ->
     create_blueprint env self statements verbose w =
     (Raise (mk_exn AttributeError "'str' object has no attribute 'content'"),
      (w ++ [EChatCall messages])%list)).
Proof.
  cbv zeta. rewrite create_blueprint_callable. cbv zeta.
  change (blueprint_messages statements) with
    [mk_Message SystemRole
       "You are a helpful AI blogger who writes essays on technical topics.";
     mk_Message HumanRole (blueprint_preamble ++ "```" ++ statements ++ "```")].
  split; [| split]; intros x Hx; rewrite Hx; cbn [attr_content];
    try reflexivity.
  destruct verbose; [rewrite <- app_assoc |]; reflexivity.
Qed.

Lemma transcript2insights_one_call_witness :
  fst (transcript2insights env_down (mk_Outliner "" (constant_chat two_facts))
         "abc" []) = Return two_facts.
Proof.
  apply (proj1 (proj2 (transcript2insights_one_call env_down ""
                         (fun _ _ => Return (PMessage two_facts)) "abc" []))).
  reflexivity.
Defined.

Lemma create_blueprint_one_call_witness :
  create_blueprint env_down (mk_Outliner "" (constant_chat "{}")) "- a" true []
  = (Return "{}",
     [EChatCall (blueprint_messages "- a");
      EPrint (nl ++ "Essay outline: {}" ++ nl)]).
Proof.
  apply (proj1 (create_blueprint_one_call env_down ""
                  (fun _ _ => Return (PMessage "{}")) "- a" true [])).
  reflexivity.
Defined.

(** ** [Outliner.create_essay_insights]: the loop over the chunks *)

(** X9: with a chat object that answers every call with a message,
    [create_essay_insights] calls it once per chunk, in chunk order, each
    time with the prompt of that chunk, and returns the answers in chunk
    order, each preceded by one line feed; for no chunk it returns the
    empty string without a call. *)
Theorem create_essay_insights_collects_in_order
    (env : Env) (raw : string) (f : trace -> list Message -> outcome pyval)
    (g : list Message -> string) (chunks : list Document) (verbose : bool)
    (w : trace) :
  (forall tr msgs, f tr msgs = Return (PMessage (g msgs))) ->
  fst (create_essay_insights env (mk_Outliner raw (VCallable f)) chunks
         verbose w) =
    Return (blocks (map (fun d => g (insights_messages (page_content d)))
                      chunks)) /\
  filter is_chat_call
    (snd (create_essay_insights env (mk_Outliner raw (VCallable f)) chunks
            verbose w)) =
    (filter is_chat_call w ++
     map (fun d => EChatCall (insights_messages (page_content d))) chunks)%list.
Proof.
  intros Hf. unfold create_essay_insights. split.
  - rewrite (@insights_loop_callable env raw f g (List.length chunks) verbose
               chunks Hf 0 "" w). reflexivity.
  - apply (@insights_loop_calls env raw f g (List.length chunks) verbose
             chunks Hf 0 "" w).
Qed.

Lemma create_essay_insights_collects_in_order_witness :
  let self := mk_Outliner "" counting_chat in
  let chunks := [mk_Document "a"; mk_Document "bcd"; mk_Document ""] in
  fst (create_essay_insights env_down self chunks true []) =
    Return (nl ++ "726" ++ nl ++ "728" ++ nl ++ "725") /\
  filter is_chat_call (snd (create_essay_insights env_down self chunks true []))
    = [EChatCall (insights_messages "a"); EChatCall (insights_messages "bcd");
       EChatCall (insights_messages "")].
Proof.
  cbv zeta.
  pose proof (@create_essay_insights_collects_in_order env_down ""
                (fun _ messages =>
                   Return (PMessage
                     (str_of_nat
                        (String.length
                           (msg_content
                              (last messages (mk_Message HumanRole "")))))))
                (fun messages =>
                   str_of_nat
                     (String.length
                        (msg_content (last messages (mk_Message HumanRole "")))))
                [mk_Document "a"; mk_Document "bcd"; mk_Document ""] true []
                (fun _ _ => eq_refl)) as [Hres Hcalls].
  split.
  - refine (eq_trans Hres _). vm_compute. reflexivity.
  - exact Hcalls.
Defined.

(** One extraction with a chat object that looks at the messages only. *)
Lemma transcript2insights_stateless (env : Env) (raw : string)
    (g : list Message -> outcome pyval) (chunk : string) (w : trace) :
  transcript2insights env (mk_Outliner raw (stateless_chat g)) chunk w =
  (match g (insights_messages chunk) with
   | Return v => attr_content v
   | Raise e => Raise e
   end,
   (w ++ [EChatCall (insights_messages chunk)])%list).
Proof. unfold stateless_chat. apply transcript2insights_callable. Qed.

(** One round of the loop. *)
Lemma insights_loop_cons (env : Env) (self : Outliner) (total : nat)
    (verbose : bool) (i : nat) (d : Document) (rest : list Document)
    (response : string) (w : trace) :
  insights_loop env self total verbose i (d :: rest) response w =
  match transcript2insights env self (page_content d) w with
  | (Raise e, w1) => (Raise e, w1)
  | (Return insights, w1) =>
      insights_loop env self total verbose (S i) rest
        (join nl [response; insights])
        (if verbose
         then (w1 ++ [EPrint (nl ++ "Insights extracted from chunk " ++
                              str_of_nat (i + 1) ++ "/" ++ str_of_nat total ++
                              ":" ++ nl ++ insights)])%list
         else w1)
  end.
Proof.
  cbn [insights_loop]. unfold bind.
  destruct (transcript2insights env self (page_content d) w) as [[ins | e] w1];
    [| reflexivity].
  destruct verbose; reflexivity.
Qed.

Lemma insights_loop_stops (env : Env) (raw : string)
    (g : list Message -> outcome pyval) (total : nat) (verbose : bool)
    (d : Document) (post : list Document) (e : exn) (pre : list Document) :
  (forall d', In d' pre ->
     exists c, g (insights_messages (page_content d')) = Return (PMessage c)) ->
  g (insights_messages (page_content d)) = Raise e ->
  forall (i : nat) (response : string) (w : trace),
    fst (insights_loop env (mk_Outliner raw (stateless_chat g)) total verbose
           i (pre ++ d :: post) response w) = Raise e /\
    filter is_chat_call
      (snd (insights_loop env (mk_Outliner raw (stateless_chat g)) total
              verbose i (pre ++ d :: post) response w)) =
    (filter is_chat_call w ++
     map (fun x => EChatCall (insights_messages (page_content x)))
       (pre ++ [d]))%list.
Proof.
  intros Hpre Hd. induction pre as [| a pre IH]; intros i response w.
  - cbn [app map]. rewrite insights_loop_cons, transcript2insights_stateless, Hd.
    cbn [fst snd]. rewrite filter_app. cbn [filter is_chat_call].
    split; reflexivity.
  - destruct (Hpre a (or_introl eq_refl)) as [c Hc].
    assert (Hpre' : forall d', In d' pre ->
              exists c, g (insights_messages (page_content d')) =
                        Return (PMessage c)).
    { intros d' Hin. apply Hpre. right. exact Hin. }
    specialize (IH Hpre').
    cbn [app map]. rewrite insights_loop_cons, transcript2insights_stateless, Hc.
    cbn [attr_content].
    match goal with
    | |- fst (insights_loop _ _ _ _ ?i' _ ?r' ?w') = _ /\ _ =>
        destruct (IH i' r' w') as [Hres Hcalls]
    end.
    split; [exact Hres |].
    rewrite Hcalls. destruct verbose; rewrite !filter_app;
      cbn [filter is_chat_call]; rewrite ?app_nil_r, <- app_assoc;
      reflexivity.
Qed.

(** X10: [create_essay_insights] does not go on after a failed chunk.
    When the chat object answers the chunks before some chunk with
    messages and raises for that chunk, the exception reaches the caller:
    no text is returned for the chunks already done, and the chat object
    is called for the chunks up to the failing one and for none after
    it. *)
Theorem create_essay_insights_stops_at_first_failure
    (env : Env) (raw : string) (g : list Message -> outcome pyval)
    (pre : list Document) (d : Document) (post : list Document)
    (verbose : bool) (w : trace) (e : exn) :
  (forall d', In d' pre ->
     exists c, g (insights_messages (page_content d')) = Return (PMessage c)) ->
  g (insights_messages (page_content d)) = Raise e ->
  fst (create_essay_insights env (mk_Outliner raw (stateless_chat g))
         (pre ++ d :: post) verbose w) = Raise e /\
  filter is_chat_call
    (snd (create_essay_insights env (mk_Outliner raw (stateless_chat g))
            (pre ++ d :: post) verbose w)) =
  (filter is_chat_call w ++
   map (fun x => EChatCall (insights_messages (page_content x)))
     (pre ++ [d]))%list.
Proof.
  intros Hpre Hd. unfold create_essay_insights.
  apply insights_loop_stops; assumption.
Qed.

Lemma create_essay_insights_stops_at_first_failure_witness :
  let self := mk_Outliner "" picky_chat in
  let chunks := [mk_Document "good"; mk_Document "bad"; mk_Document "never"] in
  fst (create_essay_insights env_down self chunks true []) =
    Raise (mk_exn TimeoutError "timed out") /\
  filter is_chat_call (snd (create_essay_insights env_down self chunks true []))
    = [EChatCall (insights_messages "good"); EChatCall (insights_messages "bad")].
Proof.
  cbv zeta. unfold picky_chat.
  apply (@create_essay_insights_stops_at_first_failure env_down ""
           (fun messages =>
              match messages with
              | [_; human] =>
                  if endswith (msg_content human) "bad```"
                  then Raise (mk_exn TimeoutError "timed out")
                  else Return (PMessage "ok")
              | _ => Return PNone
              end)
           [mk_Document "good"] (mk_Document "bad") [mk_Document "never"]
           true [] (mk_exn TimeoutError "timed out")).
  - intros d' [<- | []]. exists "ok". vm_compute. reflexivity.
  - vm_compute. reflexivity.
Defined.

Lemma insights_loop_verbose (env : Env) (raw : string)
    (g : list Message -> outcome pyval) (total : nat)
    (chunks : list Document) :
  forall (i : nat) (response : string) (w1 w2 : trace),
    fst (insights_loop env (mk_Outliner raw (stateless_chat g)) total true
           i chunks response w1) =
    fst (insights_loop env (mk_Outliner raw (stateless_chat g)) total false
           i chunks response w2) /\
    exists calls : trace,
      filter is_chat_call
        (snd (insights_loop env (mk_Outliner raw (stateless_chat g)) total
                true i chunks response w1)) =
        (filter is_chat_call w1 ++ calls)%list /\
      filter is_chat_call
        (snd (insights_loop env (mk_Outliner raw (stateless_chat g)) total
                false i chunks response w2)) =
        (filter is_chat_call w2 ++ calls)%list.
Proof.
  induction chunks as [| d rest IH]; intros i response w1 w2.
  - cbn. split; [reflexivity |]. exists []. rewrite !app_nil_r.
    split; reflexivity.
  - rewrite !insights_loop_cons, !transcript2insights_stateless.
    destruct (g (insights_messages (page_content d))) as [v | e].
    + destruct (attr_content v) as [c | e].
      * match goal with
        | |- fst (insights_loop _ _ _ _ ?i' _ ?r' ?u1) =
             fst (insights_loop _ _ _ _ _ _ _ ?u2) /\ _ =>
            destruct (IH i' r' u1 u2) as [Hres [calls [H1 H2]]]
        end.
        split; [exact Hres |].
        exists (EChatCall (insights_messages (page_content d)) :: calls).
        rewrite H1, H2, !filter_app. cbn [filter is_chat_call].
        rewrite app_nil_r, <- !app_assoc. split; reflexivity.
      * cbn [fst snd]. split; [reflexivity |].
        exists [EChatCall (insights_messages (page_content d))].
        rewrite !filter_app. split; reflexivity.
    + cbn [fst snd]. split; [reflexivity |].
      exists [EChatCall (insights_messages (page_content d))].
      rewrite !filter_app. split; reflexivity.
Qed.

Lemma insights_loop_quiet (env : Env) (self : Outliner) (total : nat)
    (chunks : list Document) :
  forall (i : nat) (response : string) (w : trace),
    filter is_print
      (snd (insights_loop env self total false i chunks response w)) =
    filter is_print w.
Proof.
  induction chunks as [| d rest IH]; intros i response w.
  - reflexivity.
  - rewrite insights_loop_cons.
    destruct (transcript2insights env self (page_content d) w)
      as [[ins | e] w1] eqn:Hstep.
    + rewrite IH.
      unfold transcript2insights, bind, lift_outcome in Hstep.
      rewrite to_messages_insights in Hstep.
      destruct (chat self) as [c | f]; cbn [call_chat raise] in Hstep.
      * discriminate Hstep.
      * destruct (f w (insights_messages (page_content d)));
          injection Hstep as _ <-; rewrite filter_app; cbn;
          apply app_nil_r.
    + cbn [snd].
      unfold transcript2insights, bind, lift_outcome in Hstep.
      rewrite to_messages_insights in Hstep.
      destruct (chat self) as [c | f]; cbn [call_chat raise] in Hstep.
      * injection Hstep as _ <-. reflexivity.
      * destruct (f w (insights_messages (page_content d)));
          injection Hstep as _ <-; rewrite filter_app; cbn;
          apply app_nil_r.
Qed.

(** X11: [verbose] changes only what [create_essay_insights] prints.  With
    a chat object that looks at the messages only, the value returned or
    the exception raised and the calls made are the same with and
    without [verbose]; without [verbose] nothing is printed, whatever the
    chat object is. *)
Theorem create_essay_insights_verbose_only_prints
    (env : Env) (raw : string) (g : list Message -> outcome pyval)
    (other : chat_value) (chunks : list Document) (w : trace) :
  fst (create_essay_insights env (mk_Outliner raw (stateless_chat g)) chunks
         true w) =
  fst (create_essay_insights env (mk_Outliner raw (stateless_chat g)) chunks
         false w) /\
  filter is_chat_call
    (snd (create_essay_insights env (mk_Outliner raw (stateless_chat g))
            chunks true w)) =
  filter is_chat_call
    (snd (create_essay_insights env (mk_Outliner raw (stateless_chat g))
            chunks false w)) /\
  filter is_print
    (snd (create_essay_insights env (mk_Outliner raw other) chunks false w)) =
  filter is_print w.
Proof.
  unfold create_essay_insights.
  destruct (insights_loop_verbose env raw g (List.length chunks) chunks 0 "" w w)
    as [Hres [calls [H1 H2]]].
  split; [exact Hres |]. split.
  - rewrite H1, H2. reflexivity.
  - apply insights_loop_quiet.
Qed.

(** ** [Outliner.full_transcript2outline_json]: the whole run *)

(** X12: with a chat object that answers every call with a message, a run
    over the chunks the splitter gives makes one extraction call per chunk
    in chunk order and then one synthesis call, whose prompt holds the
    extraction answers in chunk order, each preceded by a line feed; the
    run returns the answer of the synthesis call.  No other call is
    made. *)
Theorem full_run_calls_and_result
    (env : Env) (raw : string) (f : trace -> list Message -> outcome pyval)
    (g : list Message -> string) (docs : list Document) (verbose : bool)
    (w : trace) :
  transcript_splitter env (mk_Outliner raw (VCallable f)) default_chunk_size
    default_chunk_overlap = Return docs ->
  (forall tr msgs, f tr msgs = Return (PMessage (g msgs))) ->
  let insights :=
    blocks (map (fun d => g (insights_messages (page_content d))) docs) in
  fst (full_transcript2outline_json env (mk_Outliner raw (VCallable f))
         verbose w) = Return (g (blueprint_messages insights)) /\
  filter is_chat_call
    (snd (full_transcript2outline_json env (mk_Outliner raw (VCallable f))
            verbose w)) =
  (filter is_chat_call w ++
   map (fun d => EChatCall (insights_messages (page_content d))) docs ++
   [EChatCall (blueprint_messages insights)])%list.
Proof.
  intros Hsplit Hf insights.
  unfold full_transcript2outline_json, bind, print, lift_outcome, time_now.
  rewrite Hsplit.
  match goal with
  | |- context [create_essay_insights ?e ?o ?d ?v ?u] =>
      pose proof (@insights_loop_callable env raw f g (List.length docs)
                    verbose docs Hf 0 "" u) as Hres;
      pose proof (@insights_loop_calls env raw f g (List.length docs)
                    verbose docs Hf 0 "" u) as Hcalls;
      fold (create_essay_insights e o d v u) in Hres, Hcalls;
      destruct (create_essay_insights e o d v u) as [r w1]
  end.
  cbn [fst snd] in Hres, Hcalls. subst r. cbn [append] in *.
  fold insights. rewrite create_blueprint_callable. cbv zeta.
  rewrite Hf. cbn [attr_content].
  rewrite !filter_app in Hcalls. cbn [filter is_chat_call] in Hcalls.
  rewrite !app_nil_r in Hcalls.
  destruct verbose; cbn [fst snd ret]; (split; [reflexivity |]);
    rewrite !filter_app; cbn [filter is_chat_call];
    rewrite ?app_nil_r, Hcalls, <- ?app_assoc; reflexivity.
Qed.

Lemma full_run_calls_and_result_witness :
  let self := mk_Outliner "hello world" counting_chat in
  fst (full_transcript2outline_json env_words self false []) = Return "1572" /\
  filter is_chat_call (snd (full_transcript2outline_json env_words self false []))
  = [EChatCall (insights_messages "hello");
     EChatCall (insights_messages "world");
     EChatCall (blueprint_messages (nl ++ "730" ++ nl ++ "730"))].
Proof.
  cbv zeta. unfold counting_chat.
  apply (@full_run_calls_and_result env_words "hello world"
           (fun _ messages =>
              Return (PMessage
                (str_of_nat
                   (String.length
                      (msg_content (last messages (mk_Message HumanRole "")))))))
           (fun messages =>
              str_of_nat
                (String.length
                   (msg_content (last messages (mk_Message HumanRole "")))))
           [mk_Document "hello"; mk_Document "world"] false []).
  - reflexivity.
  - intros tr msgs. reflexivity.
Defined.

Lemma full_run_with_ChatOllama (env : Env) (raw : string) (c : ChatOllama)
    (verbose : bool) (w : trace) :
  let self := mk_Outliner raw (VChatOllama c) in
  (exists e, fst (full_transcript2outline_json env self verbose w) = Raise e) /\
  (forall docs,
     transcript_splitter env self default_chunk_size default_chunk_overlap =
       Return docs ->
     fst (full_transcript2outline_json env self verbose w) =
     Raise (mk_exn TypeError "'ChatOllama' object is not callable")) /\
  filter is_chat_call (snd (full_transcript2outline_json env self verbose w)) =
    filter is_chat_call w /\
  filter is_generate_call
    (snd (full_transcript2outline_json env self verbose w)) =
    filter is_generate_call w.
Proof.
  cbv zeta.
  unfold full_transcript2outline_json, bind, print, lift_outcome, time_now,
    create_essay_insights.
  destruct (transcript_splitter env (mk_Outliner raw (VChatOllama c))
              default_chunk_size default_chunk_overlap) as [docs | e].
  - destruct docs as [| doc rest].
    + cbn [insights_loop ret List.length].
      rewrite create_blueprint_ChatOllama_not_callable. cbn [fst snd].
      split; [eexists; reflexivity |]. split; [reflexivity |].
      rewrite !filter_app. cbn [filter is_chat_call is_generate_call].
      rewrite !app_nil_r. split; reflexivity.
    + rewrite insights_loop_cons, transcript2insights_ChatOllama_raises.
      cbn [fst snd].
      split; [eexists; reflexivity |]. split; [reflexivity |].
      rewrite !filter_app. cbn [filter is_chat_call is_generate_call].
      rewrite !app_nil_r. split; reflexivity.
  - cbn [fst snd]. split; [eexists; reflexivity |].
    split; [intros docs Hdocs; discriminate Hdocs |].
    rewrite !filter_app. cbn [filter is_chat_call is_generate_call].
    rewrite !app_nil_r. split; reflexivity.
Qed.

(** X13: on every [Outliner] that [__init__] returns, a run of
    [full_transcript2outline_json] never returns an outline and never
    reaches the chat object or the backend: it raises, with the
    [TypeError] of the uncallable [ChatOllama] whenever the splitter gives
    its chunks, and the trace gains no call. *)
Theorem full_run_after_init_never_returns
    (env : Env) (input_filename : option string) (w0 : trace)
    (verbose : bool) (w : trace) :
  match Outliner_init env input_filename w0 with
  | (Return self, _) =>
      (exists e,
         fst (full_transcript2outline_json env self verbose w) = Raise e) /\
      (forall docs,
         transcript_splitter env self default_chunk_size default_chunk_overlap
           = Return docs ->
         fst (full_transcript2outline_json env self verbose w) =
         Raise (mk_exn TypeError "'ChatOllama' object is not callable")) /\
      filter is_chat_call
        (snd (full_transcript2outline_json env self verbose w)) =
        filter is_chat_call w /\
      filter is_generate_call
        (snd (full_transcript2outline_json env self verbose w)) =
        filter is_generate_call w
  | (Raise _, _) => True
  end.
Proof.
  destruct (Outliner_init env input_filename w0) as [[self | e] w1] eqn:Hinit;
    [| exact I].
  apply Outliner_init_chat in Hinit.
  destruct self as [raw c]. cbn [chat] in Hinit. subst c.
  apply full_run_with_ChatOllama.
Qed.

(** ** [Outliner.__init__]: what is read and when *)

Lemma filter_nonempty_In {A} (p : A -> bool) (items : list A) (x : A)
    (rest : list A) :
  filter p items = x :: rest -> In x items /\ p x = true.
Proof.
  intros Heq. apply filter_In. rewrite Heq. left. reflexivity.
Qed.

(** X14: when [__init__] returns, the transcript it holds is what was read
    from one file of the [Transcripts] folder, a listed name that ends in
    [.txt]; the trace gained the listing, the printed path, the read and,
    last, the backend handle.  When [__init__] raises, no backend handle
    was made, and at most one file was opened. *)
Theorem Outliner_init_reads_listed_txt
    (env : Env) (input_filename : option string) (w : trace) :
  match Outliner_init env input_filename w with
  | (Return self, w') =>
      exists names name,
        listdir env (transcripts_folder env) = Return names /\
        In name names /\ endswith name ".txt" = true /\
        read_text env (os_path_join (transcripts_folder env) name) =
          Return (raw_transcript self) /\
        (Return self, w') =
          loaded env w (os_path_join (transcripts_folder env) name)
            (raw_transcript self)
  | (Raise _, w') =>
      filter is_ollama_init w' = filter is_ollama_init w /\
      (w' = (w ++ [EListDir (transcripts_folder env)])%list \/
       exists path,
         w' = (w ++ [EListDir (transcripts_folder env);
                     EPrint ("Using transcript file: " ++ path);
                     EOpenRead path])%list)
  end.
Proof.
  unfold Outliner_init, bind, os_listdir, open_read, ChatOllama_init, print,
    raise, ret, loaded.
  destruct (listdir env (transcripts_folder env)) as [names | e] eqn:Hlist.
  - destruct (filter (fun f => endswith f ".txt") names) as [| first rest]
      eqn:Htxt.
    + split; [| left; reflexivity].
      rewrite filter_app. cbn. apply app_nil_r.
    + destruct (truthy input_filename) eqn:Htruthy.
      * destruct input_filename as [name |]; [| discriminate Htruthy].
        destruct (contains name (first :: rest)) eqn:Hc.
        -- apply contains_In in Hc. rewrite <- Htxt in Hc.
           apply filter_In in Hc. destruct Hc as [Hin Hend].
           destruct (read_text env (os_path_join (transcripts_folder env) name))
             as [content | e] eqn:Hread.
           ++ exists names, name. cbn [raw_transcript].
              rewrite <- !app_assoc. repeat split; assumption || reflexivity.
           ++ split.
              ** rewrite !filter_app. cbn. rewrite !app_nil_r. reflexivity.
              ** right. eexists. rewrite <- !app_assoc. reflexivity.
        -- split; [| left; reflexivity].
           rewrite filter_app. cbn. apply app_nil_r.
      * destruct (filter_nonempty_In _ _ Htxt) as [Hin Hend].
        destruct (read_text env (os_path_join (transcripts_folder env) first))
          as [content | e] eqn:Hread.
        -- exists names, first. cbn [raw_transcript].
           rewrite <- !app_assoc. repeat split; assumption || reflexivity.
        -- split.
           ++ rewrite !filter_app. cbn. rewrite !app_nil_r. reflexivity.
           ++ right. eexists. rewrite <- !app_assoc. reflexivity.
  - split; [| left; reflexivity].
    rewrite filter_app. cbn. apply app_nil_r.
Qed.

(** X15: a given file name that does not end in [.txt] is never loaded,
    also when a file of this name is in the folder: as soon as the folder
    holds some [.txt] file, [__init__] raises [FileNotFoundError] for it,
    having listed the folder and opened nothing. *)
Theorem Outliner_init_rejects_other_extensions
    (env : Env) (name : string) (w : trace) (names : list string) :
  listdir env (transcripts_folder env) = Return names ->
  name <> "" ->
  endswith name ".txt" = false ->
  (exists f, In f names /\ endswith f ".txt" = true) ->
  Outliner_init env (Some name) w =
  (Raise (mk_exn FileNotFoundError
            ("The specified file " ++ name ++
             " does not exist in the Transcripts folder.")),
   (w ++ [EListDir (transcripts_folder env)])%list).
Proof.
  intros Hlist Hne Hext [f [Hin Hend]].
  unfold Outliner_init, bind, os_listdir. rewrite Hlist.
  destruct (filter (fun f => endswith f ".txt") names) as [| first rest]
    eqn:Htxt.
  - assert (Hf : In f (filter (fun f => endswith f ".txt") names))
      by (apply filter_In; split; assumption).
    rewrite Htxt in Hf. destruct Hf.
  - rewrite (truthy_Some Hne).
    destruct (contains name (first :: rest)) eqn:Hc; [| reflexivity].
    apply contains_In in Hc. rewrite <- Htxt in Hc.
    apply filter_In in Hc. destruct Hc as [_ Hc].
    rewrite Hext in Hc. discriminate Hc.
Qed.

Lemma Outliner_init_rejects_other_extensions_witness :
  Outliner_init env_down (Some "notes.md") [] =
  (Raise (mk_exn FileNotFoundError
            "The specified file notes.md does not exist in the Transcripts folder."),
   [EListDir "/app/Transcripts"]).
Proof.
  apply (Outliner_init_rejects_other_extensions env_down (name := "notes.md") []
           (names := ["notes.md"; "talk.txt"; "b.txt"])).
  - reflexivity.
  - discriminate.
  - reflexivity.
  - exists "talk.txt". split; [right; left; reflexivity | reflexivity].
Defined.
